(** * InsureMate slide scripts: a shallow embedding and its properties

    Two Python scripts are modelled here:
    - [convert_ppt_to_html.py], which reads a deck through python-pptx,
      classifies the text of every slide into a title and content blocks
      and renders a static HTML page;
    - [create_ppt.py], which builds a deck from hardcoded text.

    Python [str] values are sequences of Unicode code points; they are
    modelled as lists of [N].  The python-pptx object model, the file
    system and the clock are outside the scripts and appear as data the
    functions receive. *)

From Stdlib Require Import List NArith ZArith Bool Arith Lia String Ascii.
Import ListNotations.

Set Implicit Arguments.

(* ===================================================================== *)
(** * Part I: Python strings                                              *)
(* ===================================================================== *)

Module Py.

Definition char := N.
Definition str := list char.

Definition str_eq_dec : forall a b : str, {a = b} + {a <> b} :=
  list_eq_dec N.eq_dec.

Definition str_eqb (a b : str) : bool :=
  if str_eq_dec a b then true else false.

(** Source literals are written as Rocq strings and decoded from UTF-8,
    so that [py "•"] is the one code point U+2022. *)
Fixpoint utf8_decode (need : nat) (acc : N) (bs : list N) : str :=
  match bs with
  | [] => []
  | b :: t =>
    match need with
    | O =>
      if (b <? 128)%N then b :: utf8_decode 0 0%N t
      else if (b <? 224)%N then utf8_decode 1 (b mod 32)%N t
      else if (b <? 240)%N then utf8_decode 2 (b mod 16)%N t
      else utf8_decode 3 (b mod 8)%N t
    | S O => (acc * 64 + b mod 64)%N :: utf8_decode 0 0%N t
    | S k => utf8_decode k (acc * 64 + b mod 64)%N t
    end
  end.

Definition py (s : string) : str :=
  utf8_decode 0 0%N (List.map N_of_ascii (list_ascii_of_string s)).

(** Characters the literals cannot spell. *)
Definition NL : char := 10%N.      (* '\n' *)
Definition DQ : char := 34%N.      (* the double quote *)
Definition SQ : char := 39%N.      (* the single quote *)
Definition AMP : char := 38%N.     (* & *)
Definition LT : char := 60%N.      (* < *)
Definition GT : char := 62%N.      (* > *)
Definition BULLET : char := 8226%N. (* U+2022 *)
Definition DASH : char := 45%N.    (* - *)
Definition STAR : char := 42%N.    (* * *)

(** Truthiness of a [str]: the empty string is falsy. *)
Definition truthy (s : str) : bool :=
  match s with [] => false | _ :: _ => true end.

(** [str.isspace] for one code point (CPython's [Py_UNICODE_ISSPACE]);
    [str.strip()], [str.split()] and the regex class [\s] all use it. *)
Definition isspace (c : char) : bool :=
  ((9 <=? c) && (c <=? 13) || (28 <=? c) && (c <=? 32)
   || (c =? 133) || (c =? 160) || (c =? 5760)
   || (8192 <=? c) && (c <=? 8202)
   || (c =? 8232) || (c =? 8233) || (c =? 8239) || (c =? 8287)
   || (c =? 12288))%N.

Fixpoint lstrip (s : str) : str :=
  match s with
  | [] => []
  | c :: t => if isspace c then lstrip t else s
  end.

Definition rstrip (s : str) : str := rev (lstrip (rev s)).

(** [s.strip()] *)
Definition strip (s : str) : str := rstrip (lstrip s).

(** [s.startswith(p)] *)
Fixpoint startswith (p s : str) : bool :=
  match p, s with
  | [], _ => true
  | _ :: _, [] => false
  | a :: p', b :: s' => (a =? b)%N && startswith p' s'
  end.

(** [sub in s] *)
Fixpoint contains (sub s : str) : bool :=
  startswith sub s ||
  match s with
  | [] => false
  | _ :: t => contains sub t
  end.

(** [s.replace(old, new)]: leftmost non-overlapping occurrences.  [skip]
    counts the characters of a matched occurrence still to be dropped. *)
Fixpoint replace_from (old new : str) (skip : nat) (s : str) : str :=
  match s with
  | [] => []
  | c :: t =>
    match skip with
    | S k => replace_from old new k t
    | O =>
      if startswith old s
      then new ++ replace_from old new (pred (List.length old)) t
      else c :: replace_from old new 0 t
    end
  end.

Definition replace (old new s : str) : str :=
  match old with
  | [] => new ++ flat_map (fun c => c :: new) s
  | _ :: _ => replace_from old new 0 s
  end.

(** [s.split(sep)] for a one-character separator; never the empty list. *)
Fixpoint split_on (sep : char) (s : str) : list str :=
  match s with
  | [] => [[]]
  | c :: t =>
    if (c =? sep)%N then [] :: split_on sep t
    else match split_on sep t with
         | h :: r => (c :: h) :: r
         | [] => [[c]]
         end
  end.

(** [sep.join(parts)] *)
Fixpoint join (sep : str) (parts : list str) : str :=
  match parts with
  | [] => []
  | x :: r =>
    match r with
    | [] => x
    | _ :: _ => x ++ sep ++ join sep r
    end
  end.

(** [s.split()]: maximal runs of non-whitespace.  [cur] is the run being
    read, reversed. *)
Fixpoint split_ws_from (cur : str) (s : str) : list str :=
  match s with
  | [] => match cur with [] => [] | _ :: _ => [rev cur] end
  | c :: t =>
    if isspace c
    then match cur with
         | [] => split_ws_from [] t
         | _ :: _ => rev cur :: split_ws_from [] t
         end
    else split_ws_from (c :: cur) t
  end.

Definition split_ws (s : str) : list str := split_ws_from [] s.

(** [str(n)] for a non-negative [int]. *)
Fixpoint digits (u : Decimal.uint) : str :=
  match u with
  | Decimal.Nil => []
  | Decimal.D0 r => 48%N :: digits r
  | Decimal.D1 r => 49%N :: digits r
  | Decimal.D2 r => 50%N :: digits r
  | Decimal.D3 r => 51%N :: digits r
  | Decimal.D4 r => 52%N :: digits r
  | Decimal.D5 r => 53%N :: digits r
  | Decimal.D6 r => 54%N :: digits r
  | Decimal.D7 r => 55%N :: digits r
  | Decimal.D8 r => 56%N :: digits r
  | Decimal.D9 r => 57%N :: digits r
  end.

Definition str_of_nat (n : nat) : str := digits (Nat.to_uint n).

(** [enumerate(l, start)] *)
Fixpoint enumerate (A : Type) (start : nat) (l : list A) : list (nat * A) :=
  match l with
  | [] => []
  | x :: r => (start, x) :: enumerate (S start) r
  end.

End Py.

Import Py.

(* ===================================================================== *)
(** * Part II: convert_ppt_to_html.py                                     *)
(* ===================================================================== *)

Module Convert.

(** ** The python-pptx objects the script reads

    A shape is seen through four attributes: [has_text_frame],
    [shape_type] (an integer-valued enumeration; the script only compares
    it with 1), and the two attributes [get_text_from_shape] probes with
    [hasattr]: [text], and [text_frame] with the text of its paragraphs. *)
Record shape := Shape {
  has_text_frame : bool;
  shape_type : Z;
  text : option str;
  text_frame : option (list str)
}.

(** [slide.shapes] and [prs.slides], in document order. *)
Definition slide := list shape.
Definition presentation := list slide.

(** ** escape_html *)
Definition escape_html (text : str) : str :=
  if negb (truthy text) then []
  else
    let text := replace (py "&") (py "&amp;") text in
    let text := replace (py "<") (py "&lt;") text in
    let text := replace (py ">") (py "&gt;") text in
    let text := replace [DQ] (py "&quot;") text in
    let text := replace (py "'") (py "&#39;") text in
    text.

(** ** get_text_from_shape *)
Definition get_text_from_shape (sh : shape) : str :=
  match text sh with
  | Some t => t
  | None =>
    match text_frame sh with
    | Some paragraphs => join [NL] paragraphs
    | None => []
    end
  end.

(** ** get_slide_content

    The body of the [for shape in slide.shapes] loop, on the pair of
    local variables [(title, content)]. *)
Definition classify_shape (st : str * list str) (sh : shape)
  : str * list str :=
  let (title, content) := st in
  if has_text_frame sh then
    let text := get_text_from_shape sh in
    if truthy (strip text) then
      if (shape_type sh =? 1)%Z then (text, content)
      else if negb (truthy title) && (List.length content =? 0) then
        (text, content)
      else (title, content ++ [text])
    else st
  else st.

Definition get_slide_content (sl : slide) : str * list str :=
  fold_left classify_shape sl ([], []).

(** ** The renderer of convert_pptx_to_html *)

Definition HTML_HEADER : str :=
  py "<!DOCTYPE html>
<html lang="
  ++ [DQ]
  ++ py "en"
  ++ [DQ]
  ++ py ">
<head>
    <meta charset="
  ++ [DQ]
  ++ py "UTF-8"
  ++ [DQ]
  ++ py ">
    <meta name="
  ++ [DQ]
  ++ py "viewport"
  ++ [DQ]
  ++ py " content="
  ++ [DQ]
  ++ py "width=device-width, initial-scale=1.0"
  ++ [DQ]
  ++ py ">
    <title>InsureMate Project Analysis - Presentation</title>
    <style>
        * {
            margin: 0;
            padding: 0;
            box-sizing: border-box;
        }
        
        body {
            font-family: 'Segoe UI', Tahoma, Geneva, Verdana, sans-serif;
            line-height: 1.6;
            color: #333;
            background: linear-gradient(135deg, #667eea 0%, #764ba2 100%);
            padding: 20px;
        }
        
        .container {
            max-width: 1200px;
            margin: 0 auto;
            background: white;
            border-radius: 10px;
            box-shadow: 0 10px 40px rgba(0,0,0,0.2);
            padding: 40px;
        }
        
        .slide {
            page-break-after: always;
            margin-bottom: 60px;
            padding: 30px;
            background: white;
            border-radius: 8px;
            box-shadow: 0 4px 6px rgba(0,0,0,0.1);
            min-height: 600px;
        }
        
        .slide:last-child {
            page-break-after: auto;
        }
        
        .slide-number {
            position: absolute;
            top: 10px;
            right: 20px;
            color: #999;
            font-size: 14px;
        }
        
        h1 {
            color: #667eea;
            text-align: center;
            margin-bottom: 20px;
            font-size: 2.5em;
            border-bottom: 3px solid #667eea;
            padding-bottom: 20px;
        }
        
        h2 {
            color: #764ba2;
            margin-top: 20px;
            margin-bottom: 15px;
            font-size: 2em;
            border-left: 5px solid #667eea;
            padding-left: 15px;
        }
        
        h3 {
            color: #555;
            margin-top: 15px;
            margin-bottom: 10px;
            font-size: 1.5em;
        }
        
        .slide-title {
            color: #764ba2;
            font-size: 2em;
            margin-bottom: 30px;
            padding-bottom: 15px;
            border-bottom: 2px solid #667eea;
        }
        
        .slide-content {
            margin-top: 20px;
        }
        
        .slide-content ul {
            margin-left: 30px;
            margin-top: 15px;
        }
        
        .slide-content li {
            margin: 10px 0;
            font-size: 1.1em;
            line-height: 1.8;
        }
        
        .slide-content p {
            margin: 15px 0;
            font-size: 1.1em;
            line-height: 1.8;
        }
        
        .title-slide {
            text-align: center;
            padding: 80px 40px;
        }
        
        .title-slide h1 {
            font-size: 3em;
            margin-bottom: 30px;
            border: none;
        }
        
        .title-slide .subtitle {
            font-size: 1.5em;
            color: #666;
            margin-top: 30px;
            line-height: 2;
        }
        
        .two-column {
            display: grid;
            grid-template-columns: 1fr 1fr;
            gap: 30px;
            margin-top: 20px;
        }
        
        .column {
            padding: 15px;
        }
        
        .column ul {
            margin-left: 20px;
        }
        
        .footer {
            text-align: center;
            margin-top: 40px;
            padding-top: 20px;
            border-top: 2px solid #eee;
            color: #888;
        }
        
        @media print {
            body {
                background: white;
                padding: 0;
            }
            
            .container {
                box-shadow: none;
                padding: 0;
            }
            
            .slide {
                page-break-after: always;
                margin-bottom: 0;
                box-shadow: none;
            }
        }
    </style>
</head>
<body>
    <div class="
  ++ [DQ]
  ++ py "container"
  ++ [DQ]
  ++ py ">".

(** The test of the [any(...)] generator on one line. *)
Definition is_bullet_line (line : str) : bool :=
  startswith (py "•") (strip line) || startswith (py "-") (strip line).

Definition has_bullets (lines : list str) : bool :=
  existsb is_bullet_line (filter (fun line => truthy (strip line)) lines).

(** [re.sub(r'^[•\-\*]\s*', '', line)]: without [re.MULTILINE] the
    pattern can only match at offset 0, so at most one marker and the
    whitespace after it are removed. *)
Definition is_marker (c : char) : bool :=
  ((c =? BULLET) || (c =? DASH) || (c =? STAR))%N.

Definition sub_bullet_marker (line : str) : str :=
  match line with
  | [] => []
  | c :: rest => if is_marker c then lstrip rest else line
  end.

(** One iteration of [for line in lines] inside the [<ul>]. *)
Definition render_list_line (line : str) : list str :=
  let line := strip line in
  if truthy line then
    let clean_line := sub_bullet_marker line in
    [py "<li>" ++ escape_html clean_line ++ py "</li>"]
  else [].

(** One iteration of [for item in content]. *)
Definition render_item (item : str) : list str :=
  if truthy (strip item) then
    let lines := split_on NL item in
    if has_bullets lines then
      [py "<ul>"] ++ flat_map render_list_line lines ++ [py "</ul>"]
    else
      let paragraphs :=
        filter (fun p => truthy (strip p)) (split_on NL item) in
      List.map (fun para => py "<p>" ++ escape_html para ++ py "</p>")
               paragraphs
  else [].

Definition is_title_slide (i n : nat) (title : str) : bool :=
  (i =? 1) || (i =? n)
  || contains (py "Thank You") title || contains (py "Questions") title.

Definition div_slide (title_style : bool) : str :=
  py "<div class=" ++ [DQ] ++ py "slide"
  ++ (if title_style then py " title-slide" else [])
  ++ [DQ] ++ py ">".

Definition div_slide_number (i n : nat) : str :=
  py "<div class=" ++ [DQ] ++ py "slide-number" ++ [DQ] ++ py ">Slide "
  ++ str_of_nat i ++ py " of " ++ str_of_nat n ++ py "</div>".

Definition h1 (title : str) : str :=
  py "<h1>" ++ escape_html title ++ py "</h1>".

Definition h2 (title : str) : str :=
  py "<h2 class=" ++ [DQ] ++ py "slide-title" ++ [DQ] ++ py ">"
  ++ escape_html title ++ py "</h2>".

Definition div_slide_content : str :=
  py "<div class=" ++ [DQ] ++ py "slide-content" ++ [DQ] ++ py ">".

(** The strings one iteration of [for i, slide in enumerate(prs.slides, 1)]
    appends to [html_parts]; [n] is [len(prs.slides)]. *)
Definition render_slide (i n : nat) (sl : slide) : list str :=
  let (title, content) := get_slide_content sl in
  let title_style := is_title_slide i n title in
  [div_slide title_style]
  ++ [div_slide_number i n]
  ++ (if truthy title then
        if title_style then [h1 title] else [h2 title]
      else [])
  ++ (match content with
      | [] => []
      | _ :: _ =>
        [div_slide_content] ++ flat_map render_item content ++ [py "</div>"]
      end)
  ++ [py "</div>"].

(** The footer; [now] is [datetime.now().strftime('%B %d, %Y at %I:%M %p')]. *)
Definition html_footer (now : str) (n : nat) : str :=
  py "        <div class=" ++ [DQ] ++ py "footer" ++ [DQ] ++ py ">
            <p><strong>InsureMate Project Analysis - Presentation</strong></p>
            <p>Converted from PowerPoint: " ++ now ++ py "</p>
            <p>Total Slides: " ++ str_of_nat n ++ py "</p>
        </div>
    </div>
</body>
</html>".

Definition html_parts (now : str) (prs : presentation) : list str :=
  [HTML_HEADER]
  ++ flat_map (fun p => render_slide (fst p) (List.length prs) (snd p))
              (enumerate 1 prs)
  ++ [html_footer now (List.length prs)].

Definition html_content (now : str) (prs : presentation) : str :=
  join [NL] (html_parts now prs).

(** ** Exceptions, the file system and the console

    An exception is seen through [str(e)].  The world holds the files by
    path, the lines printed on standard output and the tracebacks printed
    on standard error. *)
Record exn := Exception { exn_str : str }.

Record world := World {
  files : str -> option str;
  stdout : list str;
  stderr : list exn
}.

Definition set_file (w : world) (path data : str) : world :=
  {| files := fun p => if str_eqb p path then Some data else files w p;
     stdout := stdout w;
     stderr := stderr w |}.

(** What lies outside the script: the library call [Presentation(path)],
    which hands over the slides of the deck or raises (a failure of the
    library while the slides are read counts here); [open(path, 'w')],
    which opens or raises; [f.write(data)], which writes all of [data] or
    raises having left some text in the file; and the formatted clock.
    The exceptions are those of class [Exception], which is what these
    calls raise and what the script's [except] clause catches. *)
Record env := Env {
  Presentation : str -> exn + presentation;
  open_w : str -> option exn;
  write_w : str -> str -> option (exn * str);
  now : str
}.

(** A computation changes the world and returns a value or raises. *)
Definition M (A : Type) : Type := world -> (exn + A) * world.

Definition ret (A : Type) (a : A) : M A := fun w => (inr a, w).

Definition raise (A : Type) (e : exn) : M A := fun w => (inl e, w).

Definition bind (A B : Type) (m : M A) (k : A -> M B) : M B :=
  fun w =>
    match m w with
    | (inl e, w') => (inl e, w')
    | (inr a, w') => k a w'
    end.

(** [try: m  except Exception as e: h e] *)
Definition try_except (A : Type) (m : M A) (h : exn -> M A) : M A :=
  fun w =>
    match m w with
    | (inl e, w') => h e w'
    | (inr a, w') => (inr a, w')
    end.

Notation "x <- m ;; k" := (bind m (fun x => k))
  (at level 61, m at next level, right associativity).
Notation "m ;;; k" := (bind m (fun _ => k))
  (at level 61, right associativity).

Definition print (line : str) : M unit :=
  fun w => (inr tt, {| files := files w;
                       stdout := stdout w ++ [line];
                       stderr := stderr w |}).

(** [traceback.print_exc()] for the exception being handled. *)
Definition print_exc (e : exn) : M unit :=
  fun w => (inr tt, {| files := files w;
                       stdout := stdout w;
                       stderr := stderr w ++ [e] |}).

Definition load (E : env) (path : str) : M presentation :=
  fun w => (Presentation E path, w).

(** [open(path, 'w', encoding='utf-8')] creates or truncates the file. *)
Definition open_write (E : env) (path : str) : M unit :=
  fun w =>
    match open_w E path with
    | Some e => (inl e, w)
    | None => (inr tt, set_file w path [])
    end.

Definition file_write (E : env) (path data : str) : M unit :=
  fun w =>
    match write_w E path data with
    | Some (e, partial) => (inl e, set_file w path partial)
    | None => (inr tt, set_file w path data)
    end.

(** ** convert_pptx_to_html *)
Definition convert_pptx_to_html (E : env) (pptx_path output_path : str)
  : M nat :=
  prs <- load E pptx_path ;;
  let html := html_content (now E) prs in
  open_write E output_path ;;;
  file_write E output_path html ;;;
  ret (List.length prs).

(** ** The script body under [if __name__ == "__main__"] *)
Definition input_file : str :=
  py "/Users/wekanadmin/InsureMate/InsureMate_Project_Analysis.pptx".
Definition output_file : str :=
  py "/Users/wekanadmin/InsureMate/InsureMate_Project_Analysis_Presentation.html".

Definition main (E : env) : M unit :=
  print (py "Converting PowerPoint to HTML...") ;;;
  print (py "Input: " ++ input_file) ;;;
  try_except
    (slide_count <- convert_pptx_to_html E input_file output_file ;;
     print (py "✓ Successfully converted " ++ str_of_nat slide_count
            ++ py " slides") ;;;
     print (py "✓ Output: " ++ output_file))
    (fun e =>
       print (py "✗ Error: " ++ exn_str e) ;;;
       print_exc e).

End Convert.

(* ===================================================================== *)
(** * Part III: create_ppt.py                                             *)
(* ===================================================================== *)

Module Create.

(** ** The python-pptx objects the script builds

    Lengths are in English Metric Units, as the library stores them. *)
Definition Pt (points : N) : N := (points * 12700)%N.

(** [Inches(x)] is [int(x * 914400)]; [x] is given in tenths of an inch. *)
Definition Inches_tenths (tenths : N) : N := (tenths * 91440)%N.

Record font := Font {
  size : option N;
  bold : option bool;
  rgb : option (N * N * N)
}.

Definition no_font : font := Font None None None.

Record paragraph := Paragraph {
  p_text : str;
  level : N;
  p_font : font;
  space_after : option N
}.

Definition empty_paragraph : paragraph := Paragraph [] 0 no_font None.

Definition text_frame := list paragraph.

(** [shape.text = s]: the text frame is replaced by one paragraph per
    line of [s].  This is what the library stores for text without
    control characters other than the newline; the others it writes in an
    escaped form, which is not modelled. *)
Definition set_text (s : str) : text_frame :=
  List.map (fun line => Paragraph line 0 no_font None) (split_on NL s).

(** [text_frame.clear()]: one empty paragraph is left. *)
Definition clear (tf : text_frame) : text_frame := [empty_paragraph].

(** Assignments through [text_frame.paragraphs[0]]. *)
Definition on_first (f : paragraph -> paragraph) (tf : text_frame)
  : text_frame :=
  match tf with
  | [] => []
  | p :: r => f p :: r
  end.

Definition with_font (f : font -> font) (p : paragraph) : paragraph :=
  Paragraph (p_text p) (level p) (f (p_font p)) (space_after p).

Definition set_size (v : N) (f : font) : font := Font (Some v) (bold f) (rgb f).
Definition set_bold (v : bool) (f : font) : font := Font (size f) (Some v) (rgb f).
Definition set_rgb (r g b : N) (f : font) : font :=
  Font (size f) (bold f) (Some (r, g, b)).

(** A slide: the index of its layout in [prs.slide_layouts], the text
    frame of [slide.shapes.title], and those of [slide.placeholders[1]],
    [slide.placeholders[2]], in this order. *)
Record slide := Slide {
  layout : nat;
  title_frame : text_frame;
  placeholders : list text_frame
}.

Record presentation := Deck {
  slide_width : N;
  slide_height : N;
  slides : list slide
}.

(** [Presentation()]: the default template, without slides. *)
Definition Presentation : presentation :=
  Deck (Inches_tenths 100) (Inches_tenths 75) [].

Definition set_slide_width (prs : presentation) (v : N) : presentation :=
  Deck v (slide_height prs) (slides prs).

Definition set_slide_height (prs : presentation) (v : N) : presentation :=
  Deck (slide_width prs) v (slides prs).

(** [prs.slides.add_slide(...)] appends; the functions below build the
    slide they add in one go. *)
Definition append_slide (prs : presentation) (s : slide) : presentation :=
  Deck (slide_width prs) (slide_height prs) (slides prs ++ [s]).

(** ** clean_text *)

(** The offset just after the first [>] of [s], when at least one
    character stands before it: the length of what [[^>]+>] matches. *)
Fixpoint tag_rest (s : str) : option nat :=
  match s with
  | [] => None
  | c :: t =>
    if (c =? GT)%N then Some 1
    else match tag_rest t with
         | Some k => Some (S k)
         | None => None
         end
  end.

Definition tag_length (s : str) : option nat :=
  match s with
  | [] => None
  | c :: t =>
    if (c =? GT)%N then None
    else match tag_rest t with
         | Some k => Some (S k)
         | None => None
         end
  end.

(** [re.sub(r'<[^>]+>', '', s)]; [skip] counts the characters of a match
    still to be dropped. *)
Fixpoint remove_tags_from (skip : nat) (s : str) : str :=
  match s with
  | [] => []
  | c :: t =>
    match skip with
    | S k => remove_tags_from k t
    | O =>
      if (c =? LT)%N then
        match tag_length t with
        | Some k => remove_tags_from k t
        | None => c :: remove_tags_from 0 t
        end
      else c :: remove_tags_from 0 t
    end
  end.

Definition remove_tags (s : str) : str := remove_tags_from 0 s.

(** The pictographs removed by the chain of [replace] calls, in order. *)
Definition pictographs : list str :=
  [py "🏥"; py "📚"; py "🏗️"; py "📦";
   py "🛠️"; py "🔍"; py "💾"; py "⚙️";
   py "🔧"; py "🎨"; py "📱"; py "💼";
   py "🗄️"].

Definition clean_text (text : str) : str :=
  let text := remove_tags text in
  let text := fold_left (fun t old => replace old [] t) pictographs text in
  let text := join (py " ") (split_ws text) in
  strip text.

(** ** add_title_slide *)
Definition add_title_slide (prs : presentation) (title subtitle : str)
  : presentation :=
  let title_shape := set_text title in
  let subtitle_shape := set_text subtitle in
  let title_shape := on_first (with_font (set_size (Pt 44))) title_shape in
  let title_shape := on_first (with_font (set_bold true)) title_shape in
  let title_shape :=
    on_first (with_font (set_rgb 102 126 234)) title_shape in
  let subtitle_shape :=
    on_first (with_font (set_size (Pt 24))) subtitle_shape in
  let subtitle_shape :=
    on_first (with_font (set_rgb 118 75 162)) subtitle_shape in
  append_slide prs (Slide 0 title_shape [subtitle_shape]).

(** The body of [for item in ...: if item.strip(): ...] with the given
    font size and spacing, in points.  The paragraph holds the text as
    assigned, which is what the library stores for text without control
    characters. *)
Definition add_item (points spacing : N) (frame : text_frame) (item : str)
  : text_frame :=
  if truthy (strip item) then
    frame ++ [Paragraph (clean_text item) 0
                        (set_size (Pt points) no_font)
                        (Some (Pt spacing))]
  else frame.

Definition styled_title (title : str) : text_frame :=
  let title_shape := set_text (clean_text title) in
  let title_shape := on_first (with_font (set_size (Pt 32))) title_shape in
  let title_shape := on_first (with_font (set_bold true)) title_shape in
  on_first (with_font (set_rgb 118 75 162)) title_shape.

(** ** add_content_slide

    The Python function also returns the slide; no caller uses it. *)
Definition add_content_slide (prs : presentation) (title : str)
           (content_items : list str) : presentation :=
  let title_shape := styled_title title in
  let text_frame := clear [empty_paragraph] in
  let text_frame := fold_left (add_item 14 6) content_items text_frame in
  append_slide prs (Slide 1 title_shape [text_frame]).

(** ** add_two_column_slide *)
Definition add_two_column_slide (prs : presentation) (title : str)
           (left_items right_items : list str) : presentation :=
  let title_shape := styled_title title in
  let left_frame := clear [empty_paragraph] in
  let left_frame := fold_left (add_item 12 4) left_items left_frame in
  let right_frame := clear [empty_paragraph] in
  let right_frame := fold_left (add_item 12 4) right_items right_frame in
  append_slide prs (Slide 3 title_shape [left_frame; right_frame]).

(** ** create_presentation

    [today] is [datetime.now().strftime('%B %d, %Y')]. *)
Definition create_presentation (today : str) : presentation :=
  let prs := Presentation in
  let prs := set_slide_width prs (Inches_tenths 100) in
  let prs := set_slide_height prs (Inches_tenths 75) in
  let prs :=
    add_title_slide prs
      (py "InsureMate Project Analysis")
      (py "Comprehensive Insurance Management System" ++ [NL]
       ++ py "Technical Documentation" ++ [NL] ++ [NL]
       ++ py "Generated: " ++ today ++ [NL]
       ++ py "Author: Geetha Charu Mathi") in
  let tech_stack : list str :=
    [py "Runtime & Language: Node.js, TypeScript, ES2022";
     py "Framework & Core: NitroStack, @nitrostack/core, @nitrostack/cli";
     py "Database: MongoDB (v7.1.0), Connection Pooling";
     py "Validation & Schema: Zod (v3.22.4), TypeScript Interfaces";
     py "UI Framework: Next.js, React, TypeScript";
     py "Utilities: dotenv, In-memory Cache"] in
  let prs := add_content_slide prs (py "Technology Stack") tech_stack in
  let arch_overview : list str :=
    [py "5-Layer Architecture";
     py "Presentation Layer: Next.js Widgets (React-based UI)";
     py "Application Layer: NitroStack MCP Server";
     py "Business Logic Layer: Services (Query, Scoring, Recommendation)";
     py "Data Access Layer: MongoDBService with Connection Pooling";
     py "Data Layer: MongoDB Database with Collections & Indexes"] in
  let prs := add_content_slide prs (py "System Architecture") arch_overview in
  let arch_layers : list str :=
    [py "Presentation Layer:";
     py "• Next.js Widgets - React-based UI components";
     py "• Widgets: insurance-list, insurance-suggestion, insurance-booking, booking-status-list";
     py "• Hot module replacement for development";
     [];
     py "Application Layer:";
     py "• NitroStack MCP Server - Model Context Protocol server";
     py "• Tools - Business logic endpoints";
     py "• Resources - Data exposure endpoints";
     py "• Prompts - Conversation templates"] in
  let prs :=
    add_content_slide prs
      (py "Architecture - Presentation & Application Layers")
      arch_layers in
  let arch_business : list str :=
    [py "Business Logic Layer:";
     py "• InsuranceTools - Main tool controller";
     py "• InsuranceQueryBuilderService - MongoDB query construction";
     py "• InsuranceScoringService - Plan matching algorithm";
     py "• InsuranceRecommendationService - Recommendation generation";
     py "• CacheService - In-memory caching";
     py "• MetricsService - Performance monitoring";
     [];
     py "Data Access Layer:";
     py "• MongoDBService - Database connection management";
     py "• Connection Pooling - Efficient connection reuse (min: 2, max: 10)";
     py "• Index Management - Automatic index creation";
     py "• Retry Logic - Automatic reconnection"] in
  let prs :=
    add_content_slide prs
      (py "Architecture - Business Logic & Data Access")
      arch_business in
  let collections_intro : list str :=
    [py "Three Main Collections:";
     py "1. Insurance Collection (Primary)";
     py "2. Users Collection (Secondary)";
     py "3. Bookings Collection (Secondary)"] in
  let prs :=
    add_content_slide prs
      (py "MongoDB Collections")
      collections_intro in
  let insurance_collection : list str :=
    [py "Insurance Collection:";
     py "• Stores all insurance plan information";
     py "• Key Fields: name, type, premium, coverage, policyNumber";
     py "• Age Range: minAge, maxAge";
     py "• Family: familyCoverage, maxFamilyMembers";
     py "• Conditions: coversPreExisting, coveredConditions";
     py "• Provider & Description";
     [];
     py "Indexes:";
     py "• Text index on name for search";
     py "• Indexes on premium, age ranges, family coverage";
     py "• Unique sparse index on policyNumber";
     py "• Compound indexes for common queries"] in
  let prs :=
    add_content_slide prs
      (py "Insurance Collection")
      insurance_collection in
  let users_collection : list str :=
    [py "Users Collection:";
     py "• Stores user account information";
     py "• Key Fields: email (unique), name, phone, age, salary";
     py "• Additional: designation, address, familyMembers";
     py "• Timestamps: createdAt, updatedAt";
     [];
     py "Indexes:";
     py "• Unique index on email (primary key)";
     py "• Text index on name for search";
     py "• Indexes on age, salary, designation";
     py "• Sparse unique index on phone";
     py "• Index on createdAt for sorting"] in
  let prs := add_content_slide prs (py "Users Collection") users_collection in
  let bookings_collection : list str :=
    [py "Bookings Collection:";
     py "• Stores insurance booking records";
     py "• References: userId, insurancePlanId, policyNumber";
     py "• Status: status (pending/confirmed/cancelled/expired/active)";
     py "• Financial: premium, coverageAmount";
     py "• Dates: startDate, endDate";
     py "• Payment: paymentStatus, paymentMethod, transactionId";
     py "• Additional: notes, createdAt, updatedAt";
     [];
     py "Indexes:";
     py "• Index on userId (most common query)";
     py "• Indexes on insurancePlanId, status, paymentStatus";
     py "• Compound indexes for user bookings by status";
     py "• Date range indexes for queries"] in
  let prs :=
    add_content_slide prs
      (py "Bookings Collection")
      bookings_collection in
  let tools_intro : list str :=
    [py "Four Main Tools:";
     py "1. list_insurance - Query Tool";
     py "2. suggest_insurance_plan - AI Tool";
     py "3. book_insurance_with_user - Transaction Tool";
     py "4. list_booking_status_by_email - Query Tool"] in
  let prs := add_content_slide prs (py "Tools & Usage") tools_intro in
  let list_insurance : list str :=
    [py "list_insurance Tool:";
     py "Purpose: List and filter insurance plans";
     py "Widget: insurance-list";
     [];
     py "Input Parameters:";
     py "• salary (Required) - Annual salary for affordability";
     py "• familyMembers (Optional) - Number of family members";
     py "• age (Optional, 0-120) - User age for age range matching";
     py "• limit (Optional, default: 100) - Max records";
     py "• skip (Optional, default: 0) - Pagination";
     py "• filter (Optional) - Additional MongoDB filter";
     [];
     py "Filtering Logic:";
     py "• Premium ≤ 10% of annual salary";
     py "• Family coverage matching";
     py "• Age range validation";
     py "• Custom MongoDB operators supported"] in
  let prs :=
    add_content_slide prs
      (py "Tool: list_insurance")
      list_insurance in
  let suggest_insurance : list str :=
    [py "suggest_insurance_plan Tool:";
     py "Purpose: AI-powered insurance plan suggestions with match scoring";
     py "Widget: insurance-suggestion";
     [];
     py "Input Parameters:";
     py "• age (Required, 0-120) - User age";
     py "• salary (Required) - Annual salary";
     py "• familyMembers (Required) - Number of family members";
     py "• deficiencies (Optional) - Health deficiencies/pre-existing conditions";
     py "• insuranceType (Optional) - Filter by type";
     [];
     py "Scoring Algorithm (0-100 points):";
     py "• Age Match: 30 points";
     py "• Premium Affordability: 25 points";
     py "• Family Coverage: 20 points";
     py "• Pre-existing Conditions: 25 points";
     py "• Specific Conditions: 15 points";
     py "• Type Match: 10 points";
     [];
     py "Returns: Top 5 plans sorted by match score"] in
  let prs :=
    add_content_slide prs
      (py "Tool: suggest_insurance_plan")
      suggest_insurance in
  let book_insurance : list str :=
    [py "book_insurance_with_user Tool:";
     py "Purpose: Create booking record and manage user account";
     py "Widget: insurance-booking";
     [];
     py "Input Parameters:";
     py "• policyNumber (Required) - Insurance policy number";
     py "• email (Required) - User email (validated)";
     py "• name (Required) - User full name";
     py "• phoneNumber (Required) - User phone number";
     py "• paymentMethod (Optional) - Payment method";
     py "• startDate (Optional) - ISO 8601 format";
     py "• years (Optional, 1-50) - Coverage duration";
     py "• transactionId (Optional) - Payment transaction ID";
     py "• notes (Optional) - Additional notes";
     [];
     py "Business Logic:";
     py "• Validates insurance plan exists";
     py "• Creates/updates user account";
     py "• Creates booking with status='pending'";
     py "• Sets payment status based on transactionId";
     py "• Calculates endDate from startDate + years"] in
  let prs :=
    add_content_slide prs
      (py "Tool: book_insurance_with_user")
      book_insurance in
  let list_booking : list str :=
    [py "list_booking_status_by_email Tool:";
     py "Purpose: Retrieve all bookings for a user by email";
     py "Widget: booking-status-list";
     [];
     py "Input Parameters:";
     py "• email (Required) - User email address";
     [];
     py "Business Logic:";
     py "• Validates email format";
     py "• Finds user by email (returns error if not found)";
     py "• Retrieves all bookings for the user";
     py "• Sorts by createdAt descending (most recent first)";
     [];
     py "Response:";
     py "• success - Boolean";
     py "• user - User document";
     py "• bookings - Array of all booking documents";
     py "• count - Total number of bookings"] in
  let prs :=
    add_content_slide prs
      (py "Tool: list_booking_status_by_email")
      list_booking in
  let queries : list str :=
    [py "MongoDB Query Optimization:";
     py "• InsuranceQueryBuilderService constructs optimized queries";
     py "• All queries leverage database indexes";
     py "• Filters applied at database level";
     py "• Pagination with skip/limit";
     py "• Projection for necessary fields only";
     py "• Input sanitization prevents injection attacks";
     [];
     py "Query Types:";
     py "1. List Insurance Query - Filters by salary, age, family";
     py "2. Suggestion Query - Optimized for scoring algorithm";
     py "3. Booking Queries - User lookup, plan lookup, status filtering"] in
  let prs := add_content_slide prs (py "MongoDB Queries") queries in
  let cache_intro : list str :=
    [py "Cache Implementation:";
     py "• Type: In-memory Map-based cache";
     py "• Pattern: Singleton service";
     py "• Storage: JavaScript Map<string, CacheEntry>";
     py "• TTL: Configurable per entry, default 5 minutes";
     [];
     py "Cache Operations:";
     py "• get<T>(key) - Retrieve cached value";
     py "• set<T>(key, value, ttl?) - Store value";
     py "• getOrCompute<T>(key, computeFn, ttl?) - Cache or compute";
     py "• delete(key) - Remove entry";
     py "• clear() - Remove all entries"] in
  let prs := add_content_slide prs (py "Cache Handling") cache_intro in
  let cache_details : list str :=
    [py "Cache TTL by Operation:";
     py "• list_insurance: 5 minutes";
     py "• suggest_insurance_plan: 5 minutes";
     py "• search_insurance_names: 2 minutes";
     [];
     py "Cache Key Generation:";
     py "• Deterministic from input parameters";
     py "• Parameters sorted alphabetically";
     py "• Values JSON stringified";
     py "• Format: 'prefix:param1:value1|param2:value2|...'";
     [];
     py "Cache Cleanup:";
     py "• Automatic cleanup every 60 seconds";
     py "• Lazy expiration on get() operations";
     py "• Removes expired entries"] in
  let prs := add_content_slide prs (py "Cache Details") cache_details in
  let cache_benefits : list str :=
    [py "Cache Benefits:";
     py "• Performance: Reduces database queries by 60-80%";
     py "• Latency: Cache hits return in <1ms vs 10-50ms for DB queries";
     py "• Database Load: Significantly reduces load on MongoDB";
     py "• Cost: Lower database operation costs";
     [];
     py "Cache Flow:";
     py "1. Request received with parameters";
     py "2. Generate deterministic cache key";
     py "3. Check cache for existing entry";
     py "4. If cache hit and not expired, return cached data";
     py "5. If cache miss, execute database query";
     py "6. Store result in cache with TTL";
     py "7. Return result to caller"] in
  let prs :=
    add_content_slide prs
      (py "Cache Benefits & Flow")
      cache_benefits in
  let system_init : list str :=
    [py "System Initialization:";
     py "1. Application Start - NitroStack CLI starts MCP server";
     py "2. Module Loading - AppModule loads InsuranceModule";
     py "3. MongoDB Initialization - Connection established";
     py "4. Connection Pooling - Pool created (min: 2, max: 10)";
     py "5. Index Creation - Automatic index creation for collections";
     py "6. Service Initialization - CacheService, MetricsService as singletons";
     py "7. Health Check Start - Monitoring every 30 seconds";
     py "8. Ready State - Server ready to accept requests"] in
  let prs := add_content_slide prs (py "System Initialization") system_init in
  let request_flow : list str :=
    [py "Request Processing Flow:";
     py "1. Request Received - MCP server receives tool invocation";
     py "2. Input Validation - Zod schema validates parameters";
     py "3. Input Sanitization - InputSanitizer sanitizes inputs";
     py "4. Cache Check - CacheService checks for cached result";
     py "5. Query Building - InsuranceQueryBuilderService builds query";
     py "6. Database Query - MongoDBService executes using indexes";
     py "7. Data Processing - Results processed (scoring, formatting)";
     py "8. Cache Storage - Result stored in cache with TTL";
     py "9. Metrics Recording - MetricsService records operation";
     py "10. Response Return - Formatted response returned"] in
  let prs :=
    add_content_slide prs
      (py "Request Processing Flow")
      request_flow in
  let error_handling : list str :=
    [py "Error Handling:";
     py "• Custom Error Classes with codes and context";
     py "• Error Types:";
     py "  - DatabaseConnectionError - Connection failures";
     py "  - DatabaseQueryError - Query execution failures";
     py "  - InvalidInputError - Input validation failures";
     py "  - ConfigurationError - Configuration issues";
     [];
     py "Retry Logic:";
     py "• Automatic reconnection with exponential backoff";
     py "• Maximum 5 retry attempts";
     py "• All errors tracked in MetricsService"] in
  let prs := add_content_slide prs (py "Error Handling") error_handling in
  let performance : list str :=
    [py "Performance Optimizations:";
     py "• Database Indexes: 20+ indexes across collections";
     py "• Connection Pooling: Reuses connections (2-10)";
     py "• Caching: In-memory cache reduces database load";
     py "• Query Optimization: Filters at database level";
     py "• Pagination: Efficient data retrieval with skip/limit";
     py "• Lazy Loading: Collections initialized when needed";
     [];
     py "Monitoring & Metrics:";
     py "• MetricsService tracks: operation count, avg/min/max times";
     py "• Error count and success rate percentage";
     py "• Health Checks: MongoDB connection status, ping every 30s"] in
  let prs :=
    add_content_slide prs
      (py "Performance & Monitoring")
      performance in
  let security : list str :=
    [py "Security Features:";
     py "• Input Sanitization:";
     py "  - Regex injection prevention";
     py "  - String sanitization";
     py "  - Number validation";
     py "  - Filter object sanitization";
     [];
     py "• Type Validation:";
     py "  - Zod schemas validate all inputs";
     [];
     py "• MongoDB Injection Prevention:";
     py "  - Filter objects sanitized before query";
     [];
     py "• Email Validation:";
     py "  - Regex validation for email format"] in
  let prs := add_content_slide prs (py "Security Features") security in
  let core_services : list str :=
    [py "Core Services:";
     py "• MongoDBService - Database connection, pooling, indexes (Singleton)";
     py "• CacheService - In-memory caching with TTL (Singleton)";
     py "• MetricsService - Operation tracking, monitoring (Singleton)";
     py "• InsuranceQueryBuilderService - MongoDB query construction";
     py "• InsuranceScoringService - Match score calculation";
     py "• InsuranceRecommendationService - Recommendation generation"] in
  let prs := add_content_slide prs (py "Core Services") core_services in
  let configuration : list str :=
    [py "Configuration:";
     py "• InsuranceConfig: Environment variable management with Zod";
     [];
     py "Environment Variables:";
     py "• MONGODB_URI - MongoDB connection string";
     py "• MONGODB_DATABASE_NAME - Database name (default: 'Insurance')";
     py "• MONGODB_COLLECTION_NAME - Collection name (default: 'Insurance')";
     py "• MONGODB_MAX_POOL_SIZE - Max connections (default: 10)";
     py "• MONGODB_MIN_POOL_SIZE - Min connections (default: 2)";
     py "• MONGODB_CONNECT_TIMEOUT_MS - Connection timeout (default: 30000)";
     py "• MONGODB_SERVER_SELECTION_TIMEOUT_MS - Server selection timeout (default: 5000)"] in
  let prs := add_content_slide prs (py "Configuration") configuration in
  let utilities : list str :=
    [py "Utilities:";
     py "• InputSanitizer - Sanitizes strings, numbers, arrays, filter objects";
     py "• ObjectIdUtil - Converts MongoDB ObjectIds to strings for JSON"] in
  let prs := add_content_slide prs (py "Utilities") utilities in
  let widgets : list str :=
    [py "Widgets (UI Components):";
     py "Next.js-based React widgets for displaying tool results:";
     [];
     py "• insurance-list - Displays list of insurance plans";
     py "• insurance-suggestion - Shows suggested plans with scores";
     py "• insurance-booking - Booking confirmation interface";
     py "• booking-status-list - User booking history with status cards";
     py "• calculator-result - Calculator tool result display";
     py "• insurance-search-dropdown - Search dropdown component";
     [];
     py "Widget Development:";
     py "• Hot module replacement enabled for development"] in
  let prs := add_content_slide prs (py "Widgets (UI Components)") widgets in
  let summary : list str :=
    [py "Key Highlights:";
     py "• Modern Tech Stack: Node.js, TypeScript, MongoDB, Next.js";
     py "• 5-Layer Architecture with clear separation of concerns";
     py "• 3 MongoDB Collections with optimized indexes";
     py "• 4 Main Tools for insurance management";
     py "• Intelligent Caching System (60-80% query reduction)";
     py "• Comprehensive Error Handling & Retry Logic";
     py "• Performance Optimizations (20+ indexes, connection pooling)";
     py "• Security Features (Input sanitization, injection prevention)";
     py "• Monitoring & Metrics for operational insights"] in
  let prs := add_content_slide prs (py "Summary") summary in
  let prs :=
    add_title_slide prs
      (py "Thank You")
      (py "Questions & Discussion") in
  prs.

End Create.

(* ===================================================================== *)
(** * Part IV: vocabulary of the specification                            *)
(* ===================================================================== *)

Module Spec.
Import Convert.

(** [sub] occurs in [s] as a contiguous run. *)
Definition is_substring (sub s : str) : Prop :=
  exists pre post, s = pre ++ sub ++ post.

(** The five entities [escape_html] produces. *)
Definition entities : list str :=
  [py "&amp;"; py "&lt;"; py "&gt;"; py "&quot;"; py "&#39;"].

(** A character that still needs escaping: a raw [<], [>], double or
    single quote anywhere, or an ampersand that does not open one of the
    five entities. *)
Fixpoint needs_escaping (s : str) : bool :=
  match s with
  | [] => false
  | c :: t =>
    (((c =? LT) || (c =? GT) || (c =? DQ) || (c =? SQ))%N
     || ((c =? AMP)%N && negb (existsb (fun e => startswith e s) entities)))
    || needs_escaping t
  end.

(** A shape that takes part in the classification: it has a text frame
    and its extracted text is not blank. *)
Definition text_bearing (sh : shape) : bool :=
  has_text_frame sh && truthy (strip (get_text_from_shape sh)).

(** The shape kind the script takes for the title placeholder: the test
    [shape.shape_type == 1].  (In python-pptx the value 1 is that of an
    auto shape; placeholders, the title among them, have 14.) *)
Definition is_title_placeholder (sh : shape) : bool :=
  (shape_type sh =? 1)%Z.

(** The paragraphs one after the other, a newline between neighbours. *)
Definition newline_separated (paragraphs : list str) : str :=
  match paragraphs with
  | [] => []
  | p :: r => p ++ flat_map (fun q => NL :: q) r
  end.

Definition blank (s : str) : Prop := strip s = [].

(** The last text-bearing title placeholder of a slide, if any. *)
Definition last_title_placeholder (sl : slide) : option shape :=
  hd_error
    (rev (filter (fun sh => text_bearing sh && is_title_placeholder sh) sl)).

(** The spec's condition for the title visual style. *)
Definition title_style_condition (i n : nat) (t : str) : Prop :=
  i = 1 \/ i = n
  \/ is_substring (py "Thank You") t \/ is_substring (py "Questions") t.

(** What can be observed in the strings emitted for one slide. *)
Definition has_class_title_slide (parts : list str) : bool :=
  existsb (startswith (py "<div class=" ++ [DQ] ++ py "slide title-slide"
                       ++ [DQ] ++ py ">")) parts.

Definition has_class_plain_slide (parts : list str) : bool :=
  existsb (startswith (py "<div class=" ++ [DQ] ++ py "slide"
                       ++ [DQ] ++ py ">")) parts.

Definition has_h1 (parts : list str) : bool :=
  existsb (startswith (py "<h1>")) parts.

Definition has_h2_slide_title (parts : list str) : bool :=
  existsb (startswith (py "<h2 class=" ++ [DQ] ++ py "slide-title"
                       ++ [DQ] ++ py ">")) parts.

(** A line that, trimmed, opens with one of the given glyphs. *)
Definition starts_with_any (glyphs : list char) (line : str) : bool :=
  match strip line with
  | [] => false
  | c :: _ => existsb (N.eqb c) glyphs
  end.

Definition nonblank (s : str) : bool := truthy (strip s).

(** The second character of every string emitted for a content block is
    one of [u], [/], [l], [p]: the strings open with [<ul>], [</ul>],
    [<li>] or [<p>]. *)
Definition block_second : list char := [117; 47; 108; 112]%N.

Definition li (body : str) : str := py "<li>" ++ body ++ py "</li>".

Definition count_li (parts : list str) : nat :=
  List.length (filter (startswith (py "<li>")) parts).

(** The world once the two opening lines of the script are printed. *)
Definition started (w : world) : world :=
  {| files := files w;
     stdout := (stdout w ++ [py "Converting PowerPoint to HTML..."])
               ++ [py "Input: " ++ input_file];
     stderr := stderr w |}.

Definition error_line (e : exn) : str := py "✗ Error: " ++ exn_str e.

(** Kinds of slides of a built deck, by layout: 0 is the title and
    subtitle layout, 1 title and content, 3 two content. *)
Definition is_title_subtitle_slide (s : Create.slide) : bool :=
  (Create.layout s =? 0) && (List.length (Create.placeholders s) =? 1).

Definition is_content_slide (s : Create.slide) : bool :=
  (Create.layout s =? 1) && (List.length (Create.placeholders s) =? 1).

Definition is_two_column_slide (s : Create.slide) : bool :=
  (Create.layout s =? 3) && (List.length (Create.placeholders s) =? 2).

(** Some paragraph of the body carries text. *)
Definition has_bullet_text (s : Create.slide) : bool :=
  existsb (existsb (fun p => truthy (Create.p_text p)))
          (Create.placeholders s).

Definition title_text (s : Create.slide) : list str :=
  List.map Create.p_text (Create.title_frame s).

End Spec.

(** ** Sample shapes and slides *)

Module Sample.
Import Convert.

(** A shape the script takes for a title: its [shape_type] is 1. *)
Definition title_shape (s : str) : shape := Shape true 1 (Some s) None.
Definition body_shape (s : str) : shape := Shape true 14 (Some s) None.
Definition frame_shape (paragraphs : list str) : shape :=
  Shape true 14 None (Some paragraphs).
Definition picture : shape := Shape false 13 None None.

(** The values of python-pptx's [MSO_SHAPE_TYPE]: an auto shape (a
    rectangle, an ellipse, ...) has 1; a placeholder, the title
    placeholder included, has 14. *)
Definition AUTO_SHAPE : Z := 1.
Definition PLACEHOLDER : Z := 14.

Definition placeholder (s : str) : shape :=
  Shape true PLACEHOLDER (Some s) None.
Definition rectangle (s : str) : shape :=
  Shape true AUTO_SHAPE (Some s) None.

(** A slide as the library hands it over: the title placeholder, the body
    placeholder, then a rectangle with text drawn on the slide. *)
Definition title_body_box : slide :=
  [placeholder (py "Title"); placeholder (py "Body"); rectangle (py "Box")].

(** The three-slide deck of the end-to-end scenario. *)
Definition scenario : presentation :=
  [[title_shape (py "Intro")];
   [title_shape (py "Details"); body_shape (py "• A" ++ [NL] ++ py "• B")];
   [title_shape (py "Thank You")]].

Definition no_file : str -> option str := fun _ => None.

Definition fresh_world : world := World no_file [] [].

Definition not_found : exn := Exception (py "Package not found").
Definition disk_full : exn := Exception (py "No space left on device").

(** The deck cannot be opened. *)
Definition env_load_fails : env :=
  Env (fun _ => inl not_found) (fun _ => None) (fun _ _ => None)
      (py "November 04, 2026 at 09:41 AM").

(** The deck is read and the output opens, then the write breaks off
    after the first ten characters. *)
Definition env_write_fails : env :=
  Env (fun _ => inr scenario) (fun _ => None)
      (fun _ data => Some (disk_full, firstn 10 data))
      (py "November 04, 2026 at 09:41 AM").

(** Nothing fails. *)
Definition env_fine : env :=
  Env (fun _ => inr scenario) (fun _ => None) (fun _ _ => None)
      (py "November 04, 2026 at 09:41 AM").

Definition today : str := py "November 04, 2026".

End Sample.

(** ** Further vocabulary *)

Module More.
Import Convert.

(** What [escape_html] writes for one character. *)
Definition esc (c : char) : str :=
  if (c =? AMP)%N then py "&amp;"
  else if (c =? LT)%N then py "&lt;"
  else if (c =? GT)%N then py "&gt;"
  else if (c =? DQ)%N then py "&quot;"
  else if (c =? SQ)%N then py "&#39;"
  else [c].

Definition is_special (c : char) : bool :=
  ((c =? AMP) || (c =? LT) || (c =? GT) || (c =? DQ) || (c =? SQ))%N.

(** Occurrences of a character in a string. *)
Definition count (c : char) (s : str) : nat := count_occ N.eq_dec s c.

(** The paragraph written for a line of a block that is not a list. *)
Definition para (body : str) : str := py "<p>" ++ body ++ py "</p>".

(** As many [<] as [>], and no more than two of each. *)
Definition brackets_of_tags (part : str) : Prop :=
  count LT part = count GT part /\ count LT part <= 2.

(** The [div] of a slide, in either style. *)
Definition is_slide_div (part : str) : bool :=
  startswith (div_slide true) part || startswith (div_slide false) part.

(** A word: not empty and free of whitespace. *)
Definition is_word (w : str) : bool :=
  truthy w && forallb (fun c => negb (isspace c)) w.

(** No [<] of the string opens a tag in the sense of [<[^>]+>]. *)
Fixpoint tag_free (s : str) : bool :=
  match s with
  | [] => true
  | c :: t =>
    (if (c =? LT)%N
     then match Create.tag_length t with Some _ => false | None => true end
     else true)
    && tag_free t
  end.

(** The string holds a match of [<[^>]+>]: a [<], then at least one
    character and none of them [>], then a [>]. *)
Definition has_tag (s : str) : Prop :=
  exists pre body post,
    s = pre ++ LT :: body ++ GT :: post /\ body <> [] /\ ~ In GT body.

(** A character a paragraph stores as it is: one XML can hold, other
    than the control characters, which the library writes in an escaped
    form or turns into breaks. *)
Definition xml_text_char (c : char) : bool :=
  ((32 <=? c) && (c <=? 55295)
   || (57344 <=? c) && (c <=? 65533)
   || (65536 <=? c) && (c <=? 1114111))%N.

Definition storable (s : str) : bool := forallb xml_text_char s.

(** The paragraph [add_item] writes for an item. *)
Definition item_paragraph (points spacing : N) (item : str)
  : Create.paragraph :=
  Create.Paragraph (Create.clean_text item) 0
                   (Create.set_size (Create.Pt points) Create.no_font)
                   (Some (Create.Pt spacing)).

End More.

(* ===================================================================== *)
(** * Part V: properties                                                  *)
(* ===================================================================== *)

Import Convert Spec.

Unset Implicit Arguments.

(** ** Python strings *)


Example py_bullet : py "• A" = [8226; 32; 65]%N.
Proof. reflexivity. Qed.
Example strip_ex : strip (py "  a b  ") = py "a b".
Proof. reflexivity. Qed.
Example replace_ex : replace (py "ab") (py "X") (py "cababab_aab") = py "cXXX_aX".
Proof. reflexivity. Qed.
Example split_ex : split_on NL [97;10;10;98]%N = [[97];[];[98]]%N.
Proof. reflexivity. Qed.
Example split_ws_ex : split_ws (py "  a  bc d ") = [py "a"; py "bc"; py "d"].
Proof. reflexivity. Qed.
Example str_of_nat_ex : str_of_nat 120 = py "120" /\ str_of_nat 0 = py "0".
Proof. split; reflexivity. Qed.
Example emoji_ex : py "🏥" = [127973]%N.
Proof. reflexivity. Qed.

Lemma replace_char (c : char) (new s : str) :
  replace [c] new s
  = flat_map (fun x => if (x =? c)%N then new else [x]) s.
Proof.
  unfold replace. induction s as [|a s IH]; simpl; [reflexivity|].
  rewrite N.eqb_sym, andb_true_r.
  destruct (a =? c)%N; simpl; rewrite IH; reflexivity.
Qed.

Lemma in_replace_char (c d : char) (new s : str) :
  In d (replace [c] new s) -> In d new \/ (In d s /\ d <> c).
Proof.
  rewrite replace_char, in_flat_map. intros [x [Hx Hd]].
  destruct (x =? c)%N eqn:E.
  - now left.
  - destruct Hd as [<-|[]]. right. split; [assumption|].
    now apply N.eqb_neq.
Qed.

Lemma replace_char_removes (c : char) (new s : str) :
  ~ In c new -> ~ In c (replace [c] new s).
Proof.
  intros Hn H. apply in_replace_char in H. tauto.
Qed.

Lemma replace_char_keeps_out (c d : char) (new s : str) :
  ~ In d new -> ~ In d s -> ~ In d (replace [c] new s).
Proof.
  intros Hn Hs H. apply in_replace_char in H. tauto.
Qed.

Lemma not_in_literal (d : char) (l : str) :
  existsb (N.eqb d) l = false -> ~ In d l.
Proof.
  intros E H. assert (existsb (N.eqb d) l = true) as E'.
  { apply existsb_exists. exists d. split; [assumption|apply N.eqb_refl]. }
  congruence.
Qed.

(** ** escape_html *)

Ltac literal_free := apply not_in_literal; vm_compute; reflexivity.

(** C10: whatever the input, the escaped text holds no raw [<], [>],
    double quote or single quote: each replacement removes its character
    and the entities written by it and by the later replacements contain
    none of the four. *)
Theorem C10_escape_html_no_raw_specials (text : str) :
  ~ In LT (escape_html text) /\ ~ In GT (escape_html text)
  /\ ~ In DQ (escape_html text) /\ ~ In SQ (escape_html text).
Proof.
  unfold escape_html. destruct text as [|c text]; [simpl; tauto|].
  cbn [truthy negb]. cbv zeta.
  change (py "&") with [AMP]. change (py "<") with [LT].
  change (py ">") with [GT]. change (py "'") with [SQ].
  set (t1 := replace [AMP] (py "&amp;") (c :: text)).
  set (t2 := replace [LT] (py "&lt;") t1).
  set (t3 := replace [GT] (py "&gt;") t2).
  set (t4 := replace [DQ] (py "&quot;") t3).
  assert (H2 : ~ In LT t2) by (apply replace_char_removes; literal_free).
  assert (H3 : ~ In LT t3 /\ ~ In GT t3).
  { split; [apply replace_char_keeps_out; [literal_free|assumption]
           |apply replace_char_removes; literal_free]. }
  assert (H4 : ~ In LT t4 /\ ~ In GT t4 /\ ~ In DQ t4).
  { destruct H3. repeat split;
      [apply replace_char_keeps_out; [literal_free|assumption]..
      |apply replace_char_removes; literal_free]. }
  destruct H4 as (? & ? & ?).
  repeat split;
    [apply replace_char_keeps_out; [literal_free|assumption]..
    |apply replace_char_removes; literal_free].
Qed.

(** C4: on the text made of [<b>], [&], a double quote, a single quote
    and [</b>], the function yields
    [&lt;b&gt;&amp;&quot;&#39;&lt;/b&gt;], in which nothing is left to
    escape: no raw [<], [>] or quote, and every ampersand opens one of the
    five entities. *)
Theorem C4_escape_html_sample :
  escape_html (py "<b>&" ++ [DQ] ++ py "'</b>")
  = py "&lt;b&gt;&amp;&quot;&#39;&lt;/b&gt;"
  /\ needs_escaping (escape_html (py "<b>&" ++ [DQ] ++ py "'</b>")) = false.
Proof.
  split; vm_compute; reflexivity.
Qed.

(** ** Trimming *)

Lemma lstrip_nil_iff (s : str) : lstrip s = [] <-> forallb isspace s = true.
Proof.
  induction s as [|c s IH]; simpl; [tauto|].
  destruct (isspace c); simpl; [assumption|].
  split; discriminate.
Qed.

Lemma strip_nil_iff (s : str) : strip s = [] <-> forallb isspace s = true.
Proof.
  unfold strip, rstrip. split.
  - intros H. apply lstrip_nil_iff.
    destruct (lstrip s) as [|c t] eqn:E; [reflexivity|].
    assert (Hc : isspace c = false).
    { destruct s as [|a s]; [discriminate|]. revert E.
      induction (a :: s) as [|x l IH]; simpl; [discriminate|].
      destruct (isspace x) eqn:Ex; [assumption|].
      intros [= -> _]. assumption. }
    apply (f_equal (@rev char)) in H. rewrite rev_involutive in H.
    simpl in H. apply lstrip_nil_iff in H.
    rewrite forallb_app in H. simpl in H.
    rewrite Hc in H. rewrite andb_false_r in H. discriminate.
  - intros H. apply lstrip_nil_iff in H. rewrite H. reflexivity.
Qed.

Lemma truthy_strip_nonempty (s : str) : truthy (strip s) = true -> s <> [].
Proof. intros H ->. discriminate. Qed.

Lemma truthy_false_iff (s : str) : truthy s = false <-> s = [].
Proof. destruct s; simpl; split; congruence. Qed.

Lemma truthy_true_iff (s : str) : truthy s = true <-> s <> [].
Proof. destruct s; simpl; split; congruence. Qed.

(** ** get_text_from_shape and get_slide_content *)

Lemma join_newline_separated (paragraphs : list str) :
  join [NL] paragraphs = newline_separated paragraphs.
Proof.
  destruct paragraphs as [|p r]; [reflexivity|].
  unfold newline_separated. revert p.
  induction r as [|q r IH]; intros p; simpl.
  - now rewrite app_nil_r.
  - f_equal. f_equal. specialize (IH q). simpl in IH. exact IH.
Qed.

Lemma classify_skip (st : str * list str) (sh : shape) :
  text_bearing sh = false -> classify_shape st sh = st.
Proof.
  unfold text_bearing, classify_shape. destruct st as [t c].
  destruct (has_text_frame sh); simpl; [|reflexivity].
  intros ->. reflexivity.
Qed.

Lemma classify_placeholder (t : str) (c : list str) (sh : shape) :
  text_bearing sh = true -> is_title_placeholder sh = true ->
  classify_shape (t, c) sh = (get_text_from_shape sh, c).
Proof.
  unfold text_bearing, is_title_placeholder, classify_shape.
  intros [-> ->]%andb_true_iff ->. reflexivity.
Qed.

Lemma classify_first_text (sh : shape) :
  text_bearing sh = true ->
  classify_shape ([], []) sh = (get_text_from_shape sh, []).
Proof.
  unfold text_bearing, classify_shape.
  intros [-> ->]%andb_true_iff. simpl.
  destruct (shape_type sh =? 1)%Z; reflexivity.
Qed.

Lemma classify_titled (t : str) (c : list str) (sh : shape) :
  t <> [] -> text_bearing sh = true -> is_title_placeholder sh = false ->
  classify_shape (t, c) sh = (t, c ++ [get_text_from_shape sh]).
Proof.
  unfold text_bearing, is_title_placeholder, classify_shape.
  intros Ht [-> ->]%andb_true_iff ->.
  apply truthy_true_iff in Ht. rewrite Ht. reflexivity.
Qed.

Lemma text_bearing_nonempty (sh : shape) :
  text_bearing sh = true -> get_text_from_shape sh <> [].
Proof.
  unfold text_bearing. intros [_ H]%andb_true_iff.
  now apply truthy_strip_nonempty.
Qed.

Lemma fold_classify_filter (sl : slide) (st : str * list str) :
  fold_left classify_shape sl st
  = fold_left classify_shape (filter text_bearing sl) st.
Proof.
  revert st. induction sl as [|sh sl IH]; intros st; simpl; [reflexivity|].
  destruct (text_bearing sh) eqn:E; simpl.
  - apply IH.
  - rewrite classify_skip by assumption. apply IH.
Qed.

Lemma title_kept (post : slide) (t : str) (c : list str) :
  t <> [] ->
  Forall (fun s => text_bearing s && is_title_placeholder s = false) post ->
  fst (fold_left classify_shape post (t, c)) = t.
Proof.
  intros Ht. revert c.
  induction post as [|sh post IH]; intros c Hall; cbn [fold_left];
    [reflexivity|].
  inversion Hall as [|? ? Hsh Hpost]; subst.
  destruct (text_bearing sh) eqn:E.
  - cbn [andb] in Hsh. rewrite classify_titled by assumption. now apply IH.
  - rewrite classify_skip by assumption. now apply IH.
Qed.

Lemma last_filter_split (A : Type) (p : A -> bool) (l : list A) (x : A) :
  hd_error (rev (filter p l)) = Some x ->
  exists pre post,
    l = pre ++ x :: post /\ p x = true
    /\ Forall (fun y => p y = false) post.
Proof.
  induction l as [|a l IH] using rev_ind; [discriminate|].
  rewrite filter_app, rev_app_distr. cbn [filter]. destruct (p a) eqn:E.
  - cbn. intros [= ->].
    exists l, []. repeat split; [assumption|constructor].
  - cbn [rev app]. intros H. destruct (IH H) as (pre & post & -> & Hx & Hp).
    exists pre, (post ++ [a]). rewrite <- app_assoc. repeat split.
    + assumption.
    + apply Forall_app. split; [assumption|]. now constructor.
Qed.

Lemma title_is_last_placeholder (sl : slide) (sh : shape) :
  last_title_placeholder sl = Some sh ->
  fst (get_slide_content sl) = get_text_from_shape sh.
Proof.
  unfold last_title_placeholder. intros H.
  apply last_filter_split in H.
  destruct H as (pre & post & -> & [Htb Htp]%andb_true_iff & Hpost).
  unfold get_slide_content. rewrite fold_left_app. simpl.
  destruct (fold_left classify_shape pre ([], [])) as [t c].
  rewrite classify_placeholder by assumption.
  apply title_kept; [now apply text_bearing_nonempty|assumption].
Qed.

Lemma fold_left_invariant (A B : Type) (f : A -> B -> A) (P : A -> Prop)
      (l : list B) (a : A) :
  P a -> (forall a' x, In x l -> P a' -> P (f a' x)) ->
  P (fold_left f l a).
Proof.
  revert a. induction l as [|x l IH]; intros a Ha Hstep; simpl;
    [assumption|].
  apply IH.
  - apply Hstep; [now left|assumption].
  - intros a' y Hy. apply Hstep. now right.
Qed.

(** C1: the code at the failing input.  The first shape of the slide is
    the title placeholder, with text Title; a body placeholder and a
    rectangle with text Box follow.  The placeholders have shape type 14,
    so the test against 1 is false for the title placeholder, whose text
    becomes the title through the fallback only; the rectangle, an auto
    shape of type 1, passes the test and takes the title.  The code
    returns Box as title and Body as the one content block. *)
Theorem C1_title_taken_by_later_auto_shape :
  hd_error Sample.title_body_box = Some (Sample.placeholder (py "Title"))
  /\ get_slide_content Sample.title_body_box = (py "Box", [py "Body"])
  /\ fst (get_slide_content Sample.title_body_box)
     <> get_text_from_shape (Sample.placeholder (py "Title"))
  /\ is_title_placeholder (Sample.placeholder (py "Title")) = false
  /\ is_title_placeholder (Sample.rectangle (py "Box")) = true.
Proof.
  repeat split; try reflexivity. vm_compute. discriminate.
Qed.

(** C5: a slide with exactly one shape that has a text frame and non-blank
    text yields that shape's text as the title and no content block. *)
Theorem C5_single_text_shape (sl : slide) (sh : shape)
        (Hone : filter text_bearing sl = [sh]) :
  get_slide_content sl = (get_text_from_shape sh, []).
Proof.
  unfold get_slide_content. rewrite fold_classify_filter, Hone.
  cbn [fold_left]. apply classify_first_text.
  assert (In sh (filter text_bearing sl)) as Hin by (rewrite Hone; now left).
  now apply filter_In in Hin.
Qed.

Lemma C5_single_text_shape_witness :
  get_slide_content
    [Sample.picture; Sample.body_shape (py "Only"); Sample.body_shape (py " ")]
  = (get_text_from_shape (Sample.body_shape (py "Only")), []).
Proof.
  apply (C5_single_text_shape
           [Sample.picture; Sample.body_shape (py "Only");
            Sample.body_shape (py " ")]
           (Sample.body_shape (py "Only"))).
  reflexivity.
Defined.

(** C7: the text of a shape is its [text] attribute when it has one, and
    otherwise the paragraphs of its text frame separated by newlines; a
    shape whose text is blank after trimming changes neither the title nor
    the content blocks, wherever it stands in the slide. *)
Theorem C7_text_extraction_and_blank_skip
        (sh : shape) (pre post : slide) :
  (forall t, text sh = Some t -> get_text_from_shape sh = t)
  /\ (forall paragraphs,
        text sh = None -> text_frame sh = Some paragraphs ->
        get_text_from_shape sh = newline_separated paragraphs)
  /\ (blank (get_text_from_shape sh) ->
      get_slide_content (pre ++ sh :: post) = get_slide_content (pre ++ post)).
Proof.
  repeat split.
  - unfold get_text_from_shape. now intros t ->.
  - unfold get_text_from_shape. intros ps -> ->.
    apply join_newline_separated.
  - unfold blank. intros Hb. unfold get_slide_content.
    rewrite !fold_left_app. cbn [fold_left].
    rewrite classify_skip; [reflexivity|].
    unfold text_bearing. rewrite Hb. apply andb_false_r.
Qed.

Lemma C7_text_extraction_and_blank_skip_witness :
  get_text_from_shape (Sample.frame_shape [py " "; []; py "  "])
  = [32; 10; 10; 32; 32]%N
  /\ get_slide_content
       ([Sample.title_shape (py "T")]
        ++ Sample.frame_shape [py " "; []; py "  "]
        :: [Sample.body_shape (py "b")])
     = get_slide_content
         ([Sample.title_shape (py "T")] ++ [Sample.body_shape (py "b")]).
Proof.
  destruct (C7_text_extraction_and_blank_skip
              (Sample.frame_shape [py " "; []; py "  "])
              [Sample.title_shape (py "T")] [Sample.body_shape (py "b")])
    as (_ & Hframe & Hskip).
  split.
  - apply (Hframe [py " "; []; py "  "]); reflexivity.
  - apply Hskip. reflexivity.
Defined.

(** C8: for any sequence of shapes the result is a title, empty or the
    non-blank text of one of the shapes, and a list of content blocks none
    of which is blank after trimming. *)
Theorem C8_classification_result_invariant (sl : slide) :
  (fst (get_slide_content sl) = []
   \/ exists sh, In sh sl /\ text_bearing sh = true
                 /\ fst (get_slide_content sl) = get_text_from_shape sh)
  /\ Forall (fun block => ~ blank block) (snd (get_slide_content sl)).
Proof.
  unfold get_slide_content.
  apply (fold_left_invariant _ _ classify_shape
           (fun st =>
              (fst st = []
               \/ exists sh, In sh sl /\ text_bearing sh = true
                             /\ fst st = get_text_from_shape sh)
              /\ Forall (fun block => ~ blank block) (snd st))).
  - split; [now left|constructor].
  - intros [t c] sh Hin [Ht Hc]. cbn [fst snd] in Ht, Hc.
    destruct (text_bearing sh) eqn:Htb.
    + assert (Hnb : ~ blank (get_text_from_shape sh)).
      { unfold blank. unfold text_bearing in Htb.
        apply andb_true_iff in Htb. destruct Htb as [_ Htb].
        now apply truthy_true_iff. }
      unfold classify_shape. unfold text_bearing in Htb.
      apply andb_true_iff in Htb. destruct Htb as [Hf Hs].
      rewrite Hf, Hs.
      assert (Hme : exists sh0, In sh0 sl /\ text_bearing sh0 = true
                     /\ get_text_from_shape sh = get_text_from_shape sh0).
      { exists sh. repeat split; [assumption|].
        unfold text_bearing. now rewrite Hf, Hs. }
      destruct (shape_type sh =? 1)%Z; [split; [now right|assumption]|].
      destruct (negb (truthy t) && (List.length c =? 0));
        [split; [now right|assumption]|].
      split; [assumption|]. cbn [snd]. apply Forall_app.
      split; [assumption|]. now constructor.
    + rewrite classify_skip by assumption. now split.
Qed.

(** ** Substrings *)

Lemma startswith_iff (p s : str) :
  startswith p s = true <-> exists post, s = p ++ post.
Proof.
  revert s. induction p as [|a p IH]; intros s; simpl.
  - split; [intros _; now exists s|reflexivity].
  - destruct s as [|b s].
    + split; [discriminate|intros [post H]; discriminate].
    + rewrite andb_true_iff, N.eqb_eq, IH. split.
      * intros [-> [post ->]]. now exists post.
      * intros [post [= -> ->]]. split; [reflexivity|now exists post].
Qed.

Lemma contains_iff (sub s : str) :
  contains sub s = true <-> is_substring sub s.
Proof.
  unfold is_substring. induction s as [|c s IH].
  - cbn [contains]. rewrite orb_false_r, startswith_iff. split.
    + intros [post H]. now exists [], post.
    + intros (pre & post & H). symmetry in H.
      apply app_eq_nil in H. destruct H as [-> H].
      apply app_eq_nil in H. destruct H as [-> ->]. now exists [].
  - cbn [contains]. rewrite orb_true_iff, startswith_iff, IH. split.
    + intros [[post H]|(pre & post & H)].
      * now exists [], post.
      * exists (c :: pre), post. now rewrite H.
    + intros (pre & post & H). destruct pre as [|a pre].
      * left. now exists post.
      * right. injection H as _ H. now exists pre, post.
Qed.

Lemma is_title_slide_iff (i n : nat) (t : str) :
  is_title_slide i n t = true <-> title_style_condition i n t.
Proof.
  unfold is_title_slide, title_style_condition.
  rewrite !orb_true_iff, !Nat.eqb_eq, !contains_iff. tauto.
Qed.

Lemma is_title_slide_false_iff (i n : nat) (t : str) :
  is_title_slide i n t = false <-> ~ title_style_condition i n t.
Proof.
  rewrite <- is_title_slide_iff. destruct (is_title_slide i n t); split;
    congruence.
Qed.

(** ** What the renderer emits *)

Lemma startswith_second (a b : char) (x p : str) :
  startswith (a :: b :: x) p = true -> nth_error p 1 = Some b.
Proof.
  destruct p as [|a' [|b' p]]; simpl; try discriminate.
  - rewrite andb_false_r. discriminate.
  - intros H. apply andb_true_iff in H. destruct H as [_ H].
    apply andb_true_iff in H. destruct H as [H _].
    apply N.eqb_eq in H. now subst.
Qed.

Lemma render_list_line_second (line : str) :
  Forall (fun part => exists b, nth_error part 1 = Some b /\ In b block_second)
         (render_list_line line).
Proof.
  unfold render_list_line. destruct (truthy (strip line)); constructor;
    [|constructor].
  exists 108%N. split; [reflexivity|]. unfold block_second. simpl. tauto.
Qed.

Lemma render_item_second (item : str) :
  Forall (fun part => exists b, nth_error part 1 = Some b /\ In b block_second)
         (render_item item).
Proof.
  unfold render_item. destruct (truthy (strip item)); [|constructor].
  destruct (has_bullets (split_on NL item)).
  - apply Forall_app. split.
    + constructor; [|constructor]. exists 117%N.
      split; [reflexivity|]. unfold block_second. simpl. tauto.
    + apply Forall_app. split.
      * apply Forall_flat_map. apply Forall_forall. intros line _.
        apply render_list_line_second.
      * constructor; [|constructor]. exists 47%N.
        split; [reflexivity|]. unfold block_second. simpl. tauto.
  - apply Forall_map. apply Forall_forall. intros para _.
    exists 112%N. split; [reflexivity|]. unfold block_second. simpl. tauto.
Qed.

Lemma blocks_not_observed (a b : char) (x : str) (content : list str) :
  ~ In b block_second ->
  existsb (startswith (a :: b :: x)) (flat_map render_item content) = false.
Proof.
  intros Hb. destruct (existsb _ _) eqn:E; [|reflexivity].
  apply existsb_exists in E. destruct E as (part & Hin & Hs).
  apply in_flat_map in Hin. destruct Hin as (item & _ & Hin).
  pose proof (render_item_second item) as Hall.
  rewrite Forall_forall in Hall. destruct (Hall part Hin) as (b' & Hn & Hb').
  apply startswith_second in Hs. congruence.
Qed.

Lemma render_slide_observe (a b : char) (x : str) (i n : nat) (sl : slide) :
  ~ In b block_second ->
  existsb (startswith (a :: b :: x)) (render_slide i n sl)
  = (let (t, c) := get_slide_content sl in
     let st := is_title_slide i n t in
     startswith (a :: b :: x) (div_slide st)
     || startswith (a :: b :: x) (div_slide_number i n)
     || (if truthy t
         then startswith (a :: b :: x) (if st then h1 t else h2 t)
         else false)
     || match c with
        | [] => false
        | _ :: _ => startswith (a :: b :: x) div_slide_content
                    || startswith (a :: b :: x) (py "</div>")
        end
     || startswith (a :: b :: x) (py "</div>")).
Proof.
  intros Hb. unfold render_slide.
  destruct (get_slide_content sl) as [t c]. cbv zeta.
  set (X := a :: b :: x).
  rewrite !existsb_app. cbn [existsb]. rewrite !orb_false_r.
  rewrite <- !orb_assoc. f_equal. f_equal. f_equal.
  - destruct (truthy t); [|reflexivity].
    destruct (is_title_slide i n t); cbn [existsb]; now rewrite orb_false_r.
  - f_equal. destruct c as [|item c]; [reflexivity|].
    rewrite !existsb_app. cbn [existsb]. rewrite !orb_false_r.
    subst X. rewrite blocks_not_observed by assumption. reflexivity.
Qed.

Ltac literal_prefix :=
  match goal with
  | |- context [existsb (startswith ?X) _] =>
    let v := eval vm_compute in X in change X with v
  end.

Ltac decide_prefixes :=
  repeat match goal with
         | |- context [startswith ?X ?P] =>
           let v := eval vm_compute in (startswith X P) in
           change (startswith X P) with v
         end.

Ltac observe_slide :=
  literal_prefix;
  rewrite render_slide_observe
    by (unfold block_second; simpl; intros H;
        repeat (destruct H as [H|H]; [discriminate H|]); exact H).

(** C6, as the code has it: the slide's [div] carries the class
    [title-slide] exactly when the slide is the first, the last, or its
    title contains Thank You or Questions, and the plain class [slide]
    otherwise; a heading is emitted only for a non-empty title, as [<h1>]
    under that condition and as [<h2 class=slide-title>] otherwise. *)
Theorem C6_title_style_rendering (i n : nat) (sl : slide) :
  (has_class_title_slide (render_slide i n sl) = true
   <-> title_style_condition i n (fst (get_slide_content sl)))
  /\ (has_class_plain_slide (render_slide i n sl) = true
      <-> ~ title_style_condition i n (fst (get_slide_content sl)))
  /\ (has_h1 (render_slide i n sl) = true
      <-> fst (get_slide_content sl) <> []
          /\ title_style_condition i n (fst (get_slide_content sl)))
  /\ (has_h2_slide_title (render_slide i n sl) = true
      <-> fst (get_slide_content sl) <> []
          /\ ~ title_style_condition i n (fst (get_slide_content sl))).
Proof.
  unfold has_class_title_slide, has_class_plain_slide, has_h1,
    has_h2_slide_title.
  refine (conj _ (conj _ (conj _ _))).
  all: observe_slide.
  all: destruct (get_slide_content sl) as [t c]; cbn [fst]; cbv zeta.
  all: try rewrite <- is_title_slide_iff.
  all: try rewrite <- is_title_slide_false_iff.
  all: try rewrite <- truthy_true_iff.
  all: destruct (is_title_slide i n t); destruct (truthy t);
    destruct c as [|item c]; decide_prefixes; cbn [orb];
    intuition congruence.
Qed.

(** C6 as stated fails on a slide without text: first of one, it meets the
    condition and carries the class, yet no [<h1>] is emitted; second of
    three, it does not meet the condition, and no [<h2>] is emitted. *)
Lemma C6_counterexample :
  title_style_condition 1 1 (fst (get_slide_content [Sample.picture]))
  /\ has_h1 (render_slide 1 1 [Sample.picture]) = false
  /\ ~ title_style_condition 2 3 (fst (get_slide_content [Sample.picture]))
  /\ has_h2_slide_title (render_slide 2 3 [Sample.picture]) = false.
Proof.
  repeat split.
  - now left.
  - apply is_title_slide_false_iff. reflexivity.
Qed.

(** ** Lines and bullet blocks *)

Lemma split_on_chars (sep : char) (s line : str) :
  In line (split_on sep s) -> incl line s.
Proof.
  revert line. induction s as [|c s IH]; intros line; cbn [split_on].
  - intros [<-|[]]. apply incl_refl.
  - destruct (c =? sep)%N.
    + intros [<-|H]; [apply incl_nil_l|]. apply incl_tl. now apply IH.
    + destruct (split_on sep s) as [|h r] eqn:E.
      * intros [<-|[]]. intros x [<-|[]]. now left.
      * intros [<-|H].
        -- apply incl_cons; [now left|]. apply incl_tl. apply IH. now left.
        -- apply incl_tl. apply IH. now right.
Qed.

Lemma nonblank_line_nonblank_block (item line : str) :
  In line (split_on NL item) -> nonblank line = true -> nonblank item = true.
Proof.
  unfold nonblank. intros Hin Hline.
  destruct (truthy (strip item)) eqn:E; [reflexivity|].
  apply truthy_false_iff, strip_nil_iff in E.
  rewrite forallb_forall in E.
  assert (forallb isspace line = true) as Hsp.
  { apply forallb_forall. intros x Hx. apply E.
    now apply (split_on_chars NL item line). }
  apply strip_nil_iff in Hsp. rewrite Hsp in Hline. discriminate.
Qed.

Lemma is_bullet_line_glyph (line : str) :
  is_bullet_line line = starts_with_any [BULLET; DASH] line.
Proof.
  unfold is_bullet_line, starts_with_any.
  change (py "•") with [BULLET]. change (py "-") with [DASH].
  destruct (strip line) as [|c t]; [reflexivity|].
  cbn [startswith existsb]. rewrite !andb_true_r, orb_false_r.
  now rewrite (N.eqb_sym BULLET), (N.eqb_sym DASH).
Qed.

Lemma glyph_line_nonblank (glyphs : list char) (line : str) :
  starts_with_any glyphs line = true -> nonblank line = true.
Proof.
  unfold starts_with_any, nonblank. destruct (strip line); [discriminate|].
  reflexivity.
Qed.

Lemma has_bullets_iff (lines : list str) :
  has_bullets lines = true
  <-> exists line, In line lines /\ starts_with_any [BULLET; DASH] line = true.
Proof.
  unfold has_bullets. rewrite existsb_exists. split.
  - intros (line & Hin & Hb). apply filter_In in Hin.
    exists line. rewrite <- is_bullet_line_glyph. tauto.
  - intros (line & Hin & Hb). exists line.
    rewrite is_bullet_line_glyph. split; [|assumption].
    apply filter_In. split; [assumption|].
    now apply (glyph_line_nonblank [BULLET; DASH]).
Qed.

Lemma list_lines_map (lines : list str) :
  flat_map render_list_line lines
  = List.map (fun line => li (escape_html (sub_bullet_marker (strip line))))
             (filter nonblank lines).
Proof.
  induction lines as [|line lines IH]; [reflexivity|].
  cbn [flat_map filter]. unfold render_list_line at 1, nonblank at 1.
  destruct (truthy (strip line)); cbn [map app]; now rewrite IH.
Qed.

Lemma li_kept (bodies : list str) :
  filter (startswith (py "<li>")) (List.map li bodies) = List.map li bodies.
Proof.
  induction bodies as [|b bodies IH]; [reflexivity|].
  cbn [map filter].
  assert (startswith (py "<li>") (li b) = true) as ->.
  { apply startswith_iff. eexists. reflexivity. }
  now rewrite IH.
Qed.

Lemma count_li_items (bodies : list str) :
  count_li ([py "<ul>"] ++ List.map li bodies ++ [py "</ul>"])
  = List.length bodies.
Proof.
  unfold count_li. rewrite !filter_app, li_kept.
  change (filter (startswith (py "<li>")) [py "<ul>"]) with (@nil str).
  change (filter (startswith (py "<li>")) [py "</ul>"]) with (@nil str).
  now rewrite app_nil_l, app_nil_r, length_map.
Qed.

(** The regular expression removes one marker and the run of whitespace
    after it, and leaves a line that opens with anything else alone. *)
Lemma sub_bullet_marker_strips (c : char) (ws body : str) :
  In c [BULLET; DASH; STAR] ->
  forallb isspace ws = true ->
  lstrip body = body ->
  sub_bullet_marker (c :: ws ++ body) = body.
Proof.
  intros Hc Hws Hbody. unfold sub_bullet_marker.
  assert (is_marker c = true) as ->.
  { unfold is_marker. destruct Hc as [<-|[<-|[<-|[]]]]; reflexivity. }
  induction ws as [|w ws IH]; [assumption|].
  cbn [forallb] in Hws. apply andb_true_iff in Hws. destruct Hws as [Hw Hws].
  cbn [app lstrip]. rewrite Hw. now apply IH.
Qed.

Lemma sub_bullet_marker_other (c : char) (rest : str) :
  ~ In c [BULLET; DASH; STAR] -> sub_bullet_marker (c :: rest) = c :: rest.
Proof.
  intros Hc. unfold sub_bullet_marker, is_marker.
  destruct (c =? BULLET)%N eqn:E1;
    [apply N.eqb_eq in E1; subst; exfalso; apply Hc; simpl; tauto|].
  destruct (c =? DASH)%N eqn:E2;
    [apply N.eqb_eq in E2; subst; exfalso; apply Hc; simpl; tauto|].
  destruct (c =? STAR)%N eqn:E3;
    [apply N.eqb_eq in E3; subst; exfalso; apply Hc; simpl; tauto|].
  reflexivity.
Qed.

(** C2, as the code has it: a content block with at least one line that,
    trimmed, opens with [•] or [-] is rendered as one [<ul>] with exactly
    one [<li>] per non-blank line, in order; each item is the trimmed
    line, escaped, after one leading marker [•], [-] or [*] and the
    whitespace behind it have been removed, and a line without a marker
    is kept whole.  (A line opening with [*] does not by itself make the
    block a list.) *)
Theorem C2_bullet_block_rendering (item : str)
        (Hbullet : exists line,
            In line (split_on NL item)
            /\ starts_with_any [BULLET; DASH] line = true) :
  render_item item
  = [py "<ul>"]
    ++ List.map (fun line => li (escape_html (sub_bullet_marker (strip line))))
                (filter nonblank (split_on NL item))
    ++ [py "</ul>"]
  /\ count_li (render_item item)
     = List.length (filter nonblank (split_on NL item))
  /\ (forall c ws body,
         In c [BULLET; DASH; STAR] -> forallb isspace ws = true ->
         lstrip body = body ->
         sub_bullet_marker (c :: ws ++ body) = body)
  /\ (forall c rest,
         ~ In c [BULLET; DASH; STAR] ->
         sub_bullet_marker (c :: rest) = c :: rest).
Proof.
  assert (Hrender : render_item item
    = [py "<ul>"]
      ++ List.map
           (fun line => li (escape_html (sub_bullet_marker (strip line))))
           (filter nonblank (split_on NL item))
      ++ [py "</ul>"]).
  { unfold render_item.
    assert (truthy (strip item) = true) as ->.
    { destruct Hbullet as (line & Hin & Hg).
      apply (nonblank_line_nonblank_block item line Hin).
      now apply (glyph_line_nonblank [BULLET; DASH]). }
    apply has_bullets_iff in Hbullet. rewrite Hbullet.
    now rewrite list_lines_map. }
  split; [exact Hrender|]. split.
  - rewrite Hrender.
    rewrite <- (map_map (fun line => escape_html (sub_bullet_marker (strip line)))
                       li).
    rewrite count_li_items. now rewrite length_map.
  - split; [exact sub_bullet_marker_strips|exact sub_bullet_marker_other].
Qed.

Lemma C2_bullet_block_rendering_witness :
  render_item (py "- A & B" ++ [NL] ++ [NL] ++ py "  * C" ++ [NL] ++ py "D")
  = [py "<ul>"; py "<li>A &amp; B</li>"; py "<li>C</li>"; py "<li>D</li>";
     py "</ul>"]
  /\ count_li
       (render_item
          (py "- A & B" ++ [NL] ++ [NL] ++ py "  * C" ++ [NL] ++ py "D"))
     = 3.
Proof.
  destruct (C2_bullet_block_rendering
              (py "- A & B" ++ [NL] ++ [NL] ++ py "  * C" ++ [NL] ++ py "D"))
    as (Hrender & Hcount & _).
  - exists (py "- A & B"). split; [now left|reflexivity].
  - split; [exact Hrender|exact Hcount].
Defined.

(** C2 as stated fails for the glyph [*]: the block of the one line
    [* A] opens with a bullet glyph, yet it is rendered as a paragraph
    with the marker kept and no list item. *)
Lemma C2_counterexample :
  starts_with_any [BULLET; DASH; STAR] (py "* A") = true
  /\ filter nonblank (split_on NL (py "* A")) = [py "* A"]
  /\ render_item (py "* A") = [py "<p>* A</p>"]
  /\ count_li (render_item (py "* A")) = 0.
Proof.
  repeat split.
Qed.

(** ** The script and its guard *)

Lemma set_file_lookup (w : world) (path data p : str) :
  files (set_file w path data) p
  = if str_eqb p path then Some data else files w p.
Proof. reflexivity. Qed.

Lemma str_eqb_refl (a : str) : str_eqb a a = true.
Proof. unfold str_eqb. destruct (str_eq_dec a a); congruence. Qed.

Lemma str_eqb_neq (a b : str) : a <> b -> str_eqb a b = false.
Proof. unfold str_eqb. destruct (str_eq_dec a b); congruence. Qed.

(** Where a conversion can raise, and what the world is then. *)
Lemma convert_raises (E : env) (inp out : str) (w w' : world) (e : exn) :
  convert_pptx_to_html E inp out w = (inl e, w') ->
  (Presentation E inp = inl e /\ w' = w)
  \/ (exists prs, Presentation E inp = inr prs
                  /\ open_w E out = Some e /\ w' = w)
  \/ (exists prs partial,
         Presentation E inp = inr prs /\ open_w E out = None
         /\ write_w E out (html_content (now E) prs) = Some (e, partial)
         /\ w' = set_file (set_file w out []) out partial).
Proof.
  unfold convert_pptx_to_html, bind, load, open_write, file_write, ret.
  destruct (Presentation E inp) as [e0|prs] eqn:Hload.
  - intros [= -> ->]. now left.
  - destruct (open_w E out) as [e1|] eqn:Hopen.
    + intros [= -> ->]. right. left. now exists prs.
    + destruct (write_w E out (html_content (now E) prs))
        as [[e2 partial]|] eqn:Hwrite.
      * intros [= -> <-]. right. right. now exists prs, partial.
      * discriminate.
Qed.

(** C9: an exception raised by the conversion is caught by the guard of
    the script, which prints the error line and the traceback and ends
    normally: no success line is printed, and the handler neither writes
    nor removes a file.  When the deck cannot be read or the output cannot
    be opened, every file is as before the run; when the write itself
    breaks off, what it left in the output file stays there. *)
Theorem C9_outer_guard (E : env) (w w' : world) (e : exn)
        (Hraise : convert_pptx_to_html E input_file output_file (started w)
                  = (inl e, w')) :
  main E w
  = (inr tt, {| files := files w';
                stdout := stdout (started w) ++ [error_line e];
                stderr := stderr w ++ [e] |})
  /\ ((forall p, files w' p = files w p)
      \/ exists prs partial,
           Presentation E input_file = inr prs
           /\ open_w E output_file = None
           /\ write_w E output_file (html_content (now E) prs)
              = Some (e, partial)
           /\ files w' output_file = Some partial
           /\ forall p, p <> output_file -> files w' p = files w p).
Proof.
  split.
  - assert (Hout : stdout w' = stdout (started w) /\ stderr w' = stderr w).
    { apply convert_raises in Hraise.
      destruct Hraise as [[_ ->]|[(prs & _ & _ & ->)|(prs & pt & _ & _ & _ & ->)]];
        split; reflexivity. }
    destruct Hout as [Hso Hse].
    unfold main, bind, try_except, print.
    change {| files := files {| files := files w;
                                 stdout := stdout w
                                   ++ [py "Converting PowerPoint to HTML..."];
                                 stderr := stderr w |};
              stdout := stdout {| files := files w;
                                  stdout := stdout w
                                    ++ [py "Converting PowerPoint to HTML..."];
                                  stderr := stderr w |}
                        ++ [py "Input: " ++ input_file];
              stderr := stderr {| files := files w;
                                  stdout := stdout w
                                    ++ [py "Converting PowerPoint to HTML..."];
                                  stderr := stderr w |} |}
      with (started w).
    rewrite Hraise. unfold print_exc. cbn [files stdout stderr].
    unfold error_line. now rewrite Hso, Hse.
  - apply convert_raises in Hraise.
    destruct Hraise as [[_ ->]|[(prs & _ & _ & ->)|(prs & pt & Hl & Ho & Hw & ->)]].
    + now left.
    + now left.
    + right. exists prs, pt.
      split; [exact Hl|]. split; [exact Ho|]. split; [exact Hw|]. split.
      * rewrite set_file_lookup. now rewrite str_eqb_refl.
      * intros p Hp. rewrite !set_file_lookup.
        now rewrite (str_eqb_neq p output_file Hp).
Qed.

Lemma C9_outer_guard_witness :
  main Sample.env_write_fails Sample.fresh_world
  = (inr tt,
     {| files := files (set_file (set_file (started Sample.fresh_world)
                                           output_file [])
                                 output_file (py "<!DOCTYPE "));
        stdout := stdout (started Sample.fresh_world)
                  ++ [error_line Sample.disk_full];
        stderr := stderr Sample.fresh_world ++ [Sample.disk_full] |})
  /\ ((forall p,
          files (set_file (set_file (started Sample.fresh_world)
                                    output_file [])
                          output_file (py "<!DOCTYPE ")) p
          = files Sample.fresh_world p)
      \/ exists prs partial,
           Presentation Sample.env_write_fails input_file = inr prs
           /\ open_w Sample.env_write_fails output_file = None
           /\ write_w Sample.env_write_fails output_file
                      (html_content (now Sample.env_write_fails) prs)
              = Some (Sample.disk_full, partial)
           /\ files (set_file (set_file (started Sample.fresh_world)
                                        output_file [])
                              output_file (py "<!DOCTYPE ")) output_file
              = Some partial
           /\ forall p, p <> output_file ->
                files (set_file (set_file (started Sample.fresh_world)
                                          output_file [])
                                output_file (py "<!DOCTYPE ")) p
                = files Sample.fresh_world p).
Proof.
  apply (C9_outer_guard Sample.env_write_fails Sample.fresh_world
           (set_file (set_file (started Sample.fresh_world) output_file [])
                     output_file (py "<!DOCTYPE "))
           Sample.disk_full).
  vm_compute. reflexivity.
Defined.

Example main_success_sample :
  main Sample.env_fine Sample.fresh_world
  = (inr tt,
     {| files := files (set_file
                          (set_file (started Sample.fresh_world)
                                    output_file [])
                          output_file
                          (html_content (now Sample.env_fine) Sample.scenario));
        stdout := stdout (started Sample.fresh_world)
                  ++ [py "✓ Successfully converted 3 slides";
                      py "✓ Output: " ++ output_file];
        stderr := [] |}).
Proof. reflexivity. Qed.

Example main_load_failure_sample :
  main Sample.env_load_fails Sample.fresh_world
  = (inr tt,
     {| files := Sample.no_file;
        stdout := [py "Converting PowerPoint to HTML...";
                   py "Input: " ++ input_file;
                   py "✗ Error: Package not found"];
        stderr := [Sample.not_found] |}).
Proof. reflexivity. Qed.

(** The end-to-end scenario of the specification. *)
Example scenario_rendering :
  flat_map (fun p => render_slide (fst p) 3 (snd p))
           (enumerate 1 Sample.scenario)
  = [div_slide true; div_slide_number 1 3; py "<h1>Intro</h1>"; py "</div>";
     div_slide false; div_slide_number 2 3;
     py "<h2 class=" ++ [DQ] ++ py "slide-title" ++ [DQ] ++ py ">Details</h2>";
     div_slide_content; py "<ul>"; py "<li>A</li>"; py "<li>B</li>";
     py "</ul>"; py "</div>"; py "</div>";
     div_slide true; div_slide_number 3 3; py "<h1>Thank You</h1>";
     py "</div>"].
Proof. vm_compute. reflexivity. Qed.

(** ** The generated deck *)

Example clean_text_sample :
  Create.clean_text (py "  <b>Hi</b>  🏗️ there <> a < b  <x y> z 📦")
  = py "Hi there <> a z".
Proof. vm_compute. reflexivity. Qed.

Lemma add_two_column_slide_kind (prs : Create.presentation) (title : str)
      (left_items right_items : list str) :
  exists s,
    Create.slides (Create.add_two_column_slide prs title left_items right_items)
    = Create.slides prs ++ [s]
    /\ is_two_column_slide s = true.
Proof. eexists. split; reflexivity. Qed.

(** C3, as the code has it: whatever the date, the deck has 29 slides: a
    title and subtitle slide first (InsureMate Project Analysis) and
    another last (Thank You), and between them 27 content slides, each
    with bullet text; no slide is a two-column slide, since
    [create_presentation] never calls [add_two_column_slide]. *)
Theorem C3_generated_deck (today : str) :
  List.map Create.layout (Create.slides (Create.create_presentation today))
  = 0 :: repeat 1 27 ++ [0]
  /\ forallb
       (fun s => if Create.layout s =? 0 then is_title_subtitle_slide s
                 else is_content_slide s && has_bullet_text s)
       (Create.slides (Create.create_presentation today)) = true
  /\ List.map title_text
       (filter is_title_subtitle_slide
          (Create.slides (Create.create_presentation today)))
     = [[py "InsureMate Project Analysis"]; [py "Thank You"]]
  /\ List.length
       (filter is_content_slide
          (Create.slides (Create.create_presentation today))) = 27
  /\ filter is_two_column_slide
       (Create.slides (Create.create_presentation today)) = [].
Proof.
  repeat split; vm_compute; reflexivity.
Qed.

(** C3 as stated fails: the generated deck has no two-column slide, not
    exactly one. *)
Lemma C3_counterexample :
  List.length
    (filter is_two_column_slide
       (Create.slides (Create.create_presentation Sample.today))) = 0
  /\ List.length
       (filter is_two_column_slide
          (Create.slides (Create.create_presentation Sample.today))) <> 1.
Proof.
  split; vm_compute; [reflexivity|discriminate].
Qed.

(* ===================================================================== *)
(** * Part VI: further properties                                         *)
(* ===================================================================== *)

Import More.

(** ** escape_html as one pass *)

Lemma esc_chain (x : char) :
  flat_map (fun x => if (x =? SQ)%N then py "&#39;" else [x])
    (flat_map (fun x => if (x =? DQ)%N then py "&quot;" else [x])
       (flat_map (fun x => if (x =? GT)%N then py "&gt;" else [x])
          (flat_map (fun x => if (x =? LT)%N then py "&lt;" else [x])
             (if (x =? AMP)%N then py "&amp;" else [x]))))
  = esc x.
Proof.
  unfold esc.
  destruct (N.eqb_spec x AMP) as [->|H1]; [reflexivity|].
  cbn [flat_map]. rewrite app_nil_r.
  destruct (N.eqb_spec x LT) as [->|H2]; [reflexivity|].
  cbn [flat_map]. rewrite app_nil_r.
  destruct (N.eqb_spec x GT) as [->|H3]; [reflexivity|].
  cbn [flat_map]. rewrite app_nil_r.
  destruct (N.eqb_spec x DQ) as [->|H4]; [reflexivity|].
  cbn [flat_map]. rewrite app_nil_r.
  destruct (N.eqb_spec x SQ) as [->|H5]; reflexivity.
Qed.

Lemma escape_html_esc (text : str) :
  escape_html text = flat_map esc text.
Proof.
  unfold escape_html. destruct text as [|c text]; [reflexivity|].
  cbn [truthy negb]. cbv zeta.
  change (py "&") with [AMP]. change (py "<") with [LT].
  change (py ">") with [GT]. change (py "'") with [SQ].
  rewrite !replace_char.
  induction (c :: text) as [|x s IH]; [reflexivity|].
  cbn [flat_map]. rewrite !flat_map_app.
  f_equal; [apply esc_chain|exact IH].
Qed.

(** X1: the five replacements in a row amount to one pass that writes,
    for each character of the input on its own, its entity or the
    character itself: the ampersands written for [<], [>] and the quotes
    are not escaped again. *)
Theorem X1_escape_html_one_pass (text : str) :
  escape_html text = flat_map esc text.
Proof. exact (escape_html_esc text). Qed.

Lemma esc_cases (c : char) :
  (is_special c = true /\ In (esc c) entities)
  \/ (is_special c = false /\ esc c = [c]).
Proof.
  unfold is_special, esc, entities.
  destruct (N.eqb_spec c AMP) as [->|H1]; [left; simpl; tauto|].
  destruct (N.eqb_spec c LT) as [->|H2]; [left; simpl; tauto|].
  destruct (N.eqb_spec c GT) as [->|H3]; [left; simpl; tauto|].
  destruct (N.eqb_spec c DQ) as [->|H4]; [left; simpl; tauto|].
  destruct (N.eqb_spec c SQ) as [->|H5]; [left; simpl; tauto|].
  right. split; reflexivity.
Qed.

Lemma needs_escaping_entity (e r : str) :
  In e entities -> needs_escaping (e ++ r) = needs_escaping r.
Proof.
  unfold entities. intros [<-|[<-|[<-|[<-|[<-|[]]]]]]; reflexivity.
Qed.

Lemma needs_escaping_plain (c : char) (r : str) :
  is_special c = false -> needs_escaping (c :: r) = needs_escaping r.
Proof.
  unfold is_special. intros H.
  apply orb_false_iff in H. destruct H as [H H5].
  apply orb_false_iff in H. destruct H as [H H4].
  apply orb_false_iff in H. destruct H as [H H3].
  apply orb_false_iff in H. destruct H as [H1 H2].
  cbn [needs_escaping]. now rewrite H1, H2, H3, H4, H5.
Qed.

(** X2: whatever the input, nothing is left to escape in the output: it
    holds no raw [<], [>] or quote, and each of its ampersands opens one of
    the five entities. *)
Theorem X2_escape_html_output_is_escaped (text : str) :
  needs_escaping (escape_html text) = false.
Proof.
  rewrite escape_html_esc.
  induction text as [|c text IH]; [reflexivity|].
  cbn [flat_map].
  destruct (esc_cases c) as [[_ He]|[Hc ->]].
  - now rewrite needs_escaping_entity.
  - cbn [app]. now rewrite needs_escaping_plain.
Qed.

(** X3: escaping commutes with concatenation: a text may be escaped piece
    by piece. *)
Theorem X3_escape_html_concat (a b : str) :
  escape_html (a ++ b) = escape_html a ++ escape_html b.
Proof.
  rewrite !escape_html_esc. apply flat_map_app.
Qed.

Lemma esc_length (c : char) :
  (is_special c = true /\ 4 <= List.length (esc c) /\ In AMP (esc c))
  \/ (is_special c = false /\ esc c = [c]).
Proof.
  destruct (esc_cases c) as [[Hc He]|H]; [left|now right].
  split; [assumption|]. unfold entities in He.
  destruct He as [<-|[<-|[<-|[<-|[<-|[]]]]]];
    (split; [vm_compute; lia|vm_compute; left; reflexivity]).
Qed.

Lemma escaped_length (s : str) :
  List.length s <= List.length (flat_map esc s)
  /\ (List.length (flat_map esc s) = List.length s ->
      forallb (fun c => negb (is_special c)) s = true).
Proof.
  induction s as [|c s [IHle IHeq]]; [split; [apply le_n|reflexivity]|].
  cbn [flat_map forallb List.length]. rewrite length_app.
  destruct (esc_length c) as [(Hc & Hl & _)|[Hc ->]].
  - split; [lia|]. intros H. exfalso. lia.
  - cbn [List.length]. split; [lia|]. intros H. rewrite Hc. cbn [negb andb].
    apply IHeq. lia.
Qed.

Lemma escaped_plain (s : str) :
  forallb (fun c => negb (is_special c)) s = true -> flat_map esc s = s.
Proof.
  induction s as [|c s IH]; [reflexivity|].
  cbn [forallb flat_map]. intros H. apply andb_true_iff in H.
  destruct H as [Hc Hs]. apply negb_true_iff in Hc.
  destruct (esc_cases c) as [[Hc' _]|[_ ->]]; [congruence|].
  cbn [app]. now rewrite IH.
Qed.

(** X4: a text comes back unchanged exactly when it holds none of the
    five characters; otherwise the result is longer. *)
Theorem X4_escape_html_identity_iff (text : str) :
  (escape_html text = text
   <-> forallb (fun c => negb (is_special c)) text = true)
  /\ List.length text <= List.length (escape_html text).
Proof.
  rewrite escape_html_esc. split; [split|].
  - intros H. apply escaped_length. now rewrite H.
  - apply escaped_plain.
  - apply escaped_length.
Qed.

Lemma escaped_has_amp (s : str) :
  forallb (fun c => negb (is_special c)) s = false ->
  forallb (fun c => negb (is_special c)) (flat_map esc s) = false.
Proof.
  induction s as [|c s IH]; [discriminate|].
  cbn [forallb flat_map]. rewrite forallb_app.
  destruct (esc_length c) as [(Hc & _ & Hamp)|[Hc ->]].
  - intros _. apply andb_false_iff. left.
    destruct (forallb _ (esc c)) eqn:E; [|reflexivity].
    rewrite forallb_forall in E. specialize (E AMP Hamp). discriminate.
  - rewrite Hc. cbn [negb andb forallb]. rewrite Hc. cbn [negb andb].
    exact IH.
Qed.

(** X5: escaping is not idempotent: a second pass leaves the text as the
    first pass made it exactly when the original holds none of the five
    characters; any escaped character is escaped again (the ampersand of
    its entity). *)
Theorem X5_escape_html_twice (text : str) :
  escape_html (escape_html text) = escape_html text
  <-> forallb (fun c => negb (is_special c)) text = true.
Proof.
  rewrite !escape_html_esc. split.
  - intros H.
    destruct (forallb (fun c => negb (is_special c)) text) eqn:E;
      [reflexivity|].
    apply escaped_has_amp in E.
    assert (forallb (fun c => negb (is_special c)) (flat_map esc text) = true)
      as E'.
    { apply escaped_length. now rewrite H. }
    congruence.
  - intros H. now rewrite !(escaped_plain text H).
Qed.

(** ** get_slide_content in closed form *)

Lemma content_fold (l : slide) (t : str) (c : list str) :
  t <> [] -> Forall (fun s => text_bearing s = true) l ->
  snd (fold_left classify_shape l (t, c))
  = c ++ List.map get_text_from_shape
           (filter (fun s => negb (is_title_placeholder s)) l).
Proof.
  revert t c. induction l as [|sh l IH]; intros t c Ht Hall;
    cbn [fold_left filter]; [now rewrite app_nil_r|].
  inversion Hall as [|? ? Hsh Hl]; subst.
  destruct (is_title_placeholder sh) eqn:E; cbn [negb].
  - rewrite classify_placeholder by assumption.
    apply IH; [now apply text_bearing_nonempty|assumption].
  - rewrite classify_titled by assumption.
    rewrite IH by assumption. cbn [map]. now rewrite <- app_assoc.
Qed.

Lemma filter_text_bearing (sl : slide) :
  Forall (fun s => text_bearing s = true) (filter text_bearing sl).
Proof.
  apply Forall_forall. intros s Hs. now apply filter_In in Hs.
Qed.

Lemma no_last_placeholder (sl : slide) :
  last_title_placeholder sl = None ->
  Forall (fun s => text_bearing s && is_title_placeholder s = false) sl.
Proof.
  unfold last_title_placeholder. intros H.
  assert (filter (fun sh => text_bearing sh && is_title_placeholder sh) sl
          = []) as Hnil.
  { destruct (filter _ sl) as [|a l] using rev_ind; [reflexivity|].
    rewrite rev_app_distr in H. discriminate. }
  apply Forall_forall. intros s Hs.
  destruct (text_bearing s && is_title_placeholder s) eqn:E; [|reflexivity].
  assert (In s (filter (fun sh => text_bearing sh && is_title_placeholder sh)
                       sl)) as Hin by (apply filter_In; now split).
  rewrite Hnil in Hin. destruct Hin.
Qed.

Lemma get_slide_content_closed (sl : slide) :
  get_slide_content sl
  = (match last_title_placeholder sl with
     | Some sh => get_text_from_shape sh
     | None =>
       match filter text_bearing sl with
       | [] => []
       | first :: _ => get_text_from_shape first
       end
     end,
     List.map get_text_from_shape
       (filter (fun s => negb (is_title_placeholder s))
               (tl (filter text_bearing sl)))).
Proof.
  rewrite (surjective_pairing (get_slide_content sl)). f_equal.
  - destruct (last_title_placeholder sl) as [sh|] eqn:E.
    + now apply title_is_last_placeholder.
    + apply no_last_placeholder in E. unfold get_slide_content.
      rewrite fold_classify_filter.
      assert (Forall (fun s => text_bearing s && is_title_placeholder s = false)
                     (filter text_bearing sl)) as Hall.
      { apply Forall_forall. intros s Hs. apply filter_In in Hs.
        rewrite Forall_forall in E. apply E. tauto. }
      pose proof (filter_text_bearing sl) as Htb.
      destruct (filter text_bearing sl) as [|first rest]; [reflexivity|].
      cbn [fold_left]. inversion Htb; subst. inversion Hall; subst.
      rewrite classify_first_text by assumption.
      apply title_kept; [now apply text_bearing_nonempty|assumption].
  - unfold get_slide_content. rewrite fold_classify_filter.
    pose proof (filter_text_bearing sl) as Htb.
    destruct (filter text_bearing sl) as [|first rest]; [reflexivity|].
    cbn [fold_left tl]. inversion Htb; subst.
    rewrite classify_first_text by assumption.
    rewrite content_fold;
      [reflexivity|now apply text_bearing_nonempty|assumption].
Qed.

(** X6: the result in closed form.  Of the shapes with a text frame and
    non-blank text, the title is the text of the last one marked as title
    placeholder, or of the very first when none is marked, or empty when
    there is none at all; the content is, in shape order, the text of
    every unmarked one after the first.  The first such shape is never a
    content block. *)
Theorem X6_get_slide_content_closed_form (sl : slide) :
  get_slide_content sl
  = (match last_title_placeholder sl with
     | Some sh => get_text_from_shape sh
     | None =>
       match filter text_bearing sl with
       | [] => []
       | first :: _ => get_text_from_shape first
       end
     end,
     List.map get_text_from_shape
       (filter (fun s => negb (is_title_placeholder s))
               (tl (filter text_bearing sl)))).
Proof. exact (get_slide_content_closed sl). Qed.



(** ** Blocks that are not lists *)

Lemma blank_block_blank_lines (item : str) :
  nonblank item = false -> filter nonblank (split_on NL item) = [].
Proof.
  intros Hb.
  assert (Hall : forall line, In line (split_on NL item) ->
                              nonblank line = false).
  { intros l Hin. destruct (nonblank l) eqn:El; [|reflexivity].
    rewrite (nonblank_line_nonblank_block item l Hin El) in Hb.
    discriminate. }
  induction (split_on NL item) as [|l ls IH]; [reflexivity|].
  cbn [filter]. rewrite (Hall l) by now left.
  apply IH. intros l' Hl'. apply Hall. now right.
Qed.

(** X8: a block in which no line, once trimmed, opens with [•] or [-] is
    rendered as one [<p>] per non-blank line, in order; unlike list
    items, the lines are escaped without being trimmed, and no list
    markup is written.  A blank block gives nothing. *)
Theorem X8_paragraph_block_rendering (item : str)
        (Hplain : forall line, In line (split_on NL item) ->
                               starts_with_any [BULLET; DASH] line = false) :
  render_item item
  = List.map (fun line => para (escape_html line))
             (filter nonblank (split_on NL item))
  /\ count_li (render_item item) = 0.
Proof.
  assert (Hno : has_bullets (split_on NL item) = false).
  { destruct (has_bullets (split_on NL item)) eqn:E; [|reflexivity].
    apply has_bullets_iff in E. destruct E as (line & Hin & Hb).
    rewrite (Hplain line Hin) in Hb. discriminate. }
  assert (Hr : render_item item
               = List.map (fun line => para (escape_html line))
                          (filter nonblank (split_on NL item))).
  { unfold render_item. destruct (truthy (strip item)) eqn:E.
    - rewrite Hno. reflexivity.
    - now rewrite blank_block_blank_lines. }
  split; [exact Hr|]. rewrite Hr. clear Hr. unfold count_li.
  induction (filter nonblank (split_on NL item)) as [|l ls IH];
    [reflexivity|].
  cbn [map filter].
  replace (startswith (py "<li>") (para (escape_html l))) with false
    by reflexivity.
  exact IH.
Qed.

Lemma X8_paragraph_block_rendering_witness :
  render_item (py "  a < b" ++ [NL] ++ py "   " ++ [NL] ++ py "* c")
  = List.map (fun line => para (escape_html line))
             (filter nonblank
                (split_on NL
                   (py "  a < b" ++ [NL] ++ py "   " ++ [NL] ++ py "* c")))
  /\ count_li
       (render_item (py "  a < b" ++ [NL] ++ py "   " ++ [NL] ++ py "* c"))
     = 0.
Proof.
  apply (X8_paragraph_block_rendering
           (py "  a < b" ++ [NL] ++ py "   " ++ [NL] ++ py "* c")).
  intros line [<-|[<-|[<-|[]]]]; reflexivity.
Defined.

(** ** Markup of a rendered slide *)

Lemma count_app (d : char) (a b : str) :
  count d (a ++ b) = count d a + count d b.
Proof. apply count_occ_app. Qed.

Lemma esc_no_bracket (c d : char) : d = LT \/ d = GT -> ~ In d (esc c).
Proof.
  intros Hd Hin. destruct (esc_cases c) as [[_ He]|[Hc Hp]].
  - unfold entities in He.
    destruct He as [He|[He|[He|[He|[He|[]]]]]]; rewrite <- He in Hin;
      destruct Hd as [->| ->]; vm_compute in Hin;
      repeat (destruct Hin as [Hin|Hin]; [discriminate Hin|]); exact Hin.
  - rewrite Hp in Hin. destruct Hin as [<-|[]].
    unfold is_special in Hc. destruct Hd as [->| ->]; discriminate Hc.
Qed.

Lemma count_escape_html (d : char) (t : str) :
  d = LT \/ d = GT -> count d (escape_html t) = 0.
Proof.
  intros Hd. unfold count. apply count_occ_not_In.
  rewrite escape_html_esc. intros Hin. apply in_flat_map in Hin.
  destruct Hin as (c & _ & Hin). exact (esc_no_bracket c d Hd Hin).
Qed.

Lemma count_digits (d : char) (u : Decimal.uint) :
  d = LT \/ d = GT -> count d (digits u) = 0.
Proof.
  intros Hd. unfold count. apply count_occ_not_In.
  induction u; cbn [digits]; intros Hin;
    try (destruct Hin as [Hin|Hin];
         [destruct Hd as [->| ->]; discriminate Hin|now apply IHu]).
  destruct Hin.
Qed.

Lemma count_str_of_nat (d : char) (n : nat) :
  d = LT \/ d = GT -> count d (str_of_nat n) = 0.
Proof. apply count_digits. Qed.

Ltac brackets :=
  unfold brackets_of_tags;
  rewrite ?count_app;
  rewrite ?count_escape_html by tauto;
  rewrite ?count_str_of_nat by tauto;
  vm_compute; split; [reflexivity|lia].

Lemma render_list_line_brackets (line : str) :
  Forall brackets_of_tags (render_list_line line).
Proof.
  unfold render_list_line. destruct (truthy (strip line)); constructor;
    [brackets|constructor].
Qed.

Lemma render_item_brackets (item : str) :
  Forall brackets_of_tags (render_item item).
Proof.
  unfold render_item. destruct (truthy (strip item)); [|constructor].
  destruct (has_bullets (split_on NL item)).
  - apply Forall_app. split; [constructor; [brackets|constructor]|].
    apply Forall_app. split; [|constructor; [brackets|constructor]].
    apply Forall_flat_map. apply Forall_forall. intros line _.
    apply render_list_line_brackets.
  - apply Forall_map. apply Forall_forall. intros line _. brackets.
Qed.

(** X9: in every string written for a slide the characters [<] and [>]
    are those of the tags alone: they occur equally often and at most
    twice; the title, the slide numbers and the text of the blocks add
    none, so the text of a deck cannot open or close a tag. *)
Theorem X9_slide_text_adds_no_brackets (i n : nat) (sl : slide) :
  Forall brackets_of_tags (render_slide i n sl).
Proof.
  unfold render_slide. destruct (get_slide_content sl) as [t c]. cbv zeta.
  apply Forall_app. split.
  { apply Forall_cons; [|apply Forall_nil].
    destruct (is_title_slide i n t); brackets. }
  apply Forall_app. split.
  { apply Forall_cons; [|apply Forall_nil].
    unfold div_slide_number. brackets. }
  apply Forall_app. split.
  { destruct (truthy t); [|constructor].
    destruct (is_title_slide i n t).
    - apply Forall_cons; [unfold h1; brackets|apply Forall_nil].
    - apply Forall_cons; [unfold h2; brackets|apply Forall_nil]. }
  apply Forall_app. split; [|constructor; [brackets|constructor]].
  destruct c as [|item c]; [constructor|].
  apply Forall_app. split; [constructor; [brackets|constructor]|].
  apply Forall_app. split; [|constructor; [brackets|constructor]].
  apply Forall_flat_map. apply Forall_forall. intros it _.
  apply render_item_brackets.
Qed.

Lemma filter_none (A : Type) (f : A -> bool) (l : list A) :
  (forall x, In x l -> f x = false) -> filter f l = [].
Proof.
  induction l as [|a l IH]; intros H; [reflexivity|].
  cbn [filter]. rewrite (H a) by now left.
  apply IH. intros x Hx. apply H. now right.
Qed.

Lemma block_part_prefix (a b : char) (x : str) (content : list str)
      (part : str) :
  ~ In b block_second -> In part (flat_map render_item content) ->
  startswith (a :: b :: x) part = false.
Proof.
  intros Hb Hin. pose proof (blocks_not_observed a b x content Hb) as H.
  destruct (startswith (a :: b :: x) part) eqn:E; [|reflexivity].
  rewrite <- H. symmetry. apply existsb_exists. now exists part.
Qed.

Ltac not_block_second :=
  unfold block_second; simpl; intros H;
  repeat (destruct H as [H|H]; [discriminate H|]); exact H.

Lemma slide_divs_of_slide (i n : nat) (sl : slide) :
  List.length (filter is_slide_div (render_slide i n sl)) = 1.
Proof.
  unfold render_slide. destruct (get_slide_content sl) as [t c]. cbv zeta.
  rewrite !filter_app, !length_app.
  replace (filter is_slide_div [div_slide (is_title_slide i n t)])
    with [div_slide (is_title_slide i n t)]
    by (destruct (is_title_slide i n t); reflexivity).
  replace (filter is_slide_div [div_slide_number i n])
    with (@nil str) by reflexivity.
  replace (filter is_slide_div
                  (if truthy t
                   then if is_title_slide i n t then [h1 t] else [h2 t]
                   else []))
    with (@nil str)
    by (destruct (truthy t); [|reflexivity];
        destruct (is_title_slide i n t); reflexivity).
  replace (filter is_slide_div [py "</div>"]) with (@nil str) by reflexivity.
  destruct c as [|item c]; [reflexivity|].
  rewrite !filter_app, !length_app.
  replace (filter is_slide_div [div_slide_content]) with (@nil str)
    by reflexivity.
  replace (filter is_slide_div [py "</div>"]) with (@nil str) by reflexivity.
  rewrite (filter_none _ is_slide_div (flat_map render_item (item :: c)));
    [reflexivity|].
  intros part Hin. unfold is_slide_div. apply orb_false_iff. split.
  - let v := eval vm_compute in (div_slide true) in
    change (div_slide true) with v.
    apply (block_part_prefix _ _ _ (item :: c)); [not_block_second|assumption].
  - let v := eval vm_compute in (div_slide false) in
    change (div_slide false) with v.
    apply (block_part_prefix _ _ _ (item :: c)); [not_block_second|assumption].
Qed.

Lemma slide_divs_of_slides (n k : nat) (l : list slide) :
  List.length
    (filter is_slide_div
       (flat_map (fun p => render_slide (fst p) n (snd p)) (enumerate k l)))
  = List.length l.
Proof.
  revert k. induction l as [|sl l IH]; intros k; [reflexivity|].
  cbn [enumerate flat_map fst snd List.length].
  rewrite filter_app, length_app, slide_divs_of_slide, IH. reflexivity.
Qed.

(** X10: the document holds exactly one slide [div] per slide of the
    deck, whatever the slides contain; none for an empty deck. *)
Theorem X10_one_slide_div_per_slide (now : str) (prs : presentation) :
  List.length (filter is_slide_div (html_parts now prs)) = List.length prs.
Proof.
  unfold html_parts. rewrite !filter_app, !length_app.
  rewrite slide_divs_of_slides.
  replace (filter is_slide_div [HTML_HEADER]) with (@nil str)
    by (vm_compute; reflexivity).
  replace (filter is_slide_div [html_footer now (List.length prs)])
    with (@nil str) by reflexivity.
  cbn [List.length]. lia.
Qed.

(** ** The script as a whole *)

Lemma main_unfold (E : env) (w : world) :
  main E w
  = match convert_pptx_to_html E input_file output_file (started w) with
    | (inl e, w') =>
      (inr tt, {| files := files w';
                  stdout := stdout w' ++ [error_line e];
                  stderr := stderr w' ++ [e] |})
    | (inr k, w') =>
      (inr tt, {| files := files w';
                  stdout := (stdout w'
                             ++ [py "✓ Successfully converted "
                                 ++ str_of_nat k ++ py " slides"])
                            ++ [py "✓ Output: " ++ output_file];
                  stderr := stderr w' |})
    end.
Proof.
  unfold main, bind, try_except, print, print_exc, ret.
  cbn [files stdout stderr]. unfold started.
  destruct (convert_pptx_to_html E input_file output_file _)
    as [[e|k] w']; reflexivity.
Qed.

(** X12: when the deck is read, the output opens and the write goes
    through, the output file holds the whole document, written only once
    it is complete, and the script prints the two success lines, the
    first with the number of slides; nothing goes to standard error. *)
Theorem X12_main_success (E : env) (w : world) (prs : presentation)
        (Hload : Presentation E input_file = inr prs)
        (Hopen : open_w E output_file = None)
        (Hwrite : write_w E output_file (html_content (now E) prs) = None) :
  fst (main E w) = inr tt
  /\ files (snd (main E w)) output_file = Some (html_content (now E) prs)
  /\ stdout (snd (main E w))
     = stdout (started w)
       ++ [py "✓ Successfully converted " ++ str_of_nat (List.length prs)
           ++ py " slides";
           py "✓ Output: " ++ output_file]
  /\ stderr (snd (main E w)) = stderr w.
Proof.
  rewrite main_unfold.
  assert (Hc : convert_pptx_to_html E input_file output_file (started w)
               = (inr (List.length prs),
                  set_file (set_file (started w) output_file []) output_file
                           (html_content (now E) prs))).
  { unfold convert_pptx_to_html, bind, load, open_write, file_write, ret.
    now rewrite Hload, Hopen, Hwrite. }
  rewrite Hc. cbn [fst snd files stdout stderr].
  split; [reflexivity|]. split.
  - rewrite set_file_lookup. now rewrite str_eqb_refl.
  - split; [|reflexivity]. cbn [set_file stdout]. now rewrite <- app_assoc.
Qed.

Lemma X12_main_success_witness :
  fst (main Sample.env_fine Sample.fresh_world) = inr tt
  /\ files (snd (main Sample.env_fine Sample.fresh_world)) output_file
     = Some (html_content (now Sample.env_fine) Sample.scenario)
  /\ stdout (snd (main Sample.env_fine Sample.fresh_world))
     = stdout (started Sample.fresh_world)
       ++ [py "✓ Successfully converted "
           ++ str_of_nat (List.length Sample.scenario) ++ py " slides";
           py "✓ Output: " ++ output_file]
  /\ stderr (snd (main Sample.env_fine Sample.fresh_world))
     = stderr Sample.fresh_world.
Proof.
  apply (X12_main_success Sample.env_fine Sample.fresh_world Sample.scenario);
    reflexivity.
Defined.

(** ** clean_text *)

Lemma tag_rest_some (t : str) (k : nat) :
  Create.tag_rest t = Some k
  <-> exists body post,
        t = body ++ GT :: post /\ ~ In GT body /\ k = S (List.length body).
Proof.
  revert k. induction t as [|c t IH]; intros k; cbn [Create.tag_rest].
  - split; [discriminate|]. intros (body & post & H & _).
    destruct body; discriminate.
  - destruct (N.eqb_spec c GT) as [->|Hc].
    + split.
      * intros [= <-]. exists [], t. repeat split. intros [].
      * intros (body & post & H & Hn & ->). destruct body as [|b body].
        -- reflexivity.
        -- injection H as <- _. exfalso. apply Hn. now left.
    + destruct (Create.tag_rest t) as [k'|] eqn:E.
      * split.
        -- intros [= <-]. destruct (proj1 (IH k') eq_refl)
             as (body & post & -> & Hn & ->).
           exists (c :: body), post. repeat split.
           intros [H|H]; [congruence|contradiction].
        -- intros (body & post & H & Hn & ->). destruct body as [|b body].
           ++ injection H as H _. congruence.
           ++ injection H as <- H.
              assert (Some k' = Some (S (List.length body))) as [= ->].
              { apply IH. exists body, post. repeat split; [assumption|].
                intros Hin. apply Hn. now right. }
              reflexivity.
      * split; [discriminate|].
        intros (body & post & H & Hn & ->). destruct body as [|b body].
        -- injection H as H _. congruence.
        -- injection H as <- H.
           assert (None = Some (S (List.length body))) as Habs.
           { apply IH. exists body, post. repeat split; [assumption|].
             intros Hin. apply Hn. now right. }
           discriminate.
Qed.

Lemma tag_length_some (t : str) (k : nat) :
  Create.tag_length t = Some k
  <-> exists body post,
        t = body ++ GT :: post /\ body <> [] /\ ~ In GT body
        /\ k = S (List.length body).
Proof.
  destruct t as [|c t]; cbn [Create.tag_length].
  - split; [discriminate|]. intros (body & post & H & _).
    destruct body; discriminate.
  - destruct (N.eqb_spec c GT) as [->|Hc].
    + split; [discriminate|].
      intros (body & post & H & Hne & Hn & _). destruct body as [|b body];
        [congruence|]. injection H as <- _. exfalso. apply Hn. now left.
    + destruct (Create.tag_rest t) as [k'|] eqn:E.
      * apply tag_rest_some in E. destruct E as (body & post & -> & Hn & ->).
        split.
        -- intros [= <-]. exists (c :: body), post.
           repeat split; [discriminate|].
           intros [H|H]; [congruence|contradiction].
        -- intros (body' & post' & H & Hne & Hn' & ->).
           destruct body' as [|b body']; [congruence|].
           injection H as <- H.
           assert (Create.tag_rest (body ++ GT :: post)
                   = Some (S (List.length body'))) as E1.
           { apply tag_rest_some. exists body', post'. repeat split;
               [assumption|]. intros Hin. apply Hn'. now right. }
           assert (Create.tag_rest (body ++ GT :: post)
                   = Some (S (List.length body))) as E2.
           { apply tag_rest_some. now exists body, post. }
           cbn [List.length]. congruence.
      * split; [discriminate|].
        intros (body' & post' & H & Hne & Hn' & ->).
        destruct body' as [|b body']; [congruence|].
        injection H as <- H.
        assert (Create.tag_rest t = Some (S (List.length body'))) as E1.
        { apply tag_rest_some. exists body', post'. repeat split;
            [assumption|]. intros Hin. apply Hn'. now right. }
        congruence.
Qed.

Lemma tag_free_iff (s : str) : tag_free s = true <-> ~ has_tag s.
Proof.
  induction s as [|c s IH]; cbn [tag_free].
  - split; [|reflexivity]. intros _ (pre & body & post & H & _).
    destruct pre; discriminate.
  - rewrite andb_true_iff, IH. split.
    + intros [Hc Hs] (pre & body & post & H & Hne & Hn).
      destruct pre as [|a pre].
      * injection H as -> ->. cbn in Hc.
        assert (Create.tag_length (body ++ GT :: post)
                = Some (S (List.length body))) as E.
        { apply tag_length_some. now exists body, post. }
        rewrite E in Hc. discriminate.
      * injection H as _ ->. apply Hs. now exists pre, body, post.
    + intros Hno. split.
      * destruct (N.eqb_spec c LT) as [->|Hc]; [|reflexivity].
        destruct (Create.tag_length s) as [k|] eqn:E; [|reflexivity].
        exfalso. apply Hno. apply tag_length_some in E.
        destruct E as (body & post & -> & Hne & Hn & _).
        now exists [], body, post.
      * intros (pre & body & post & -> & Hne & Hn). apply Hno.
        now exists (c :: pre), body, post.
Qed.

Lemma in_remove_tags (k : nat) (s : str) (x : char) :
  In x (Create.remove_tags_from k s) -> In x s.
Proof.
  revert k. induction s as [|c s IH]; intros k; cbn [Create.remove_tags_from];
    [tauto|].
  destruct k as [|k]; [|intros H; right; now apply (IH k)].
  destruct (c =? LT)%N.
  - destruct (Create.tag_length s) as [j|].
    + intros H. right. now apply (IH j).
    + intros [<-|H]; [now left|right; now apply (IH 0)].
  - intros [<-|H]; [now left|right; now apply (IH 0)].
Qed.

Lemma tag_rest_none (s : str) : ~ In GT s -> Create.tag_rest s = None.
Proof.
  intros Hn. destruct (Create.tag_rest s) as [k|] eqn:E; [|reflexivity].
  apply tag_rest_some in E. destruct E as (body & post & -> & _).
  exfalso. apply Hn. apply in_or_app. right. now left.
Qed.

Lemma tag_length_none_kept (t : str) :
  Create.tag_length t = None ->
  Create.tag_length (Create.remove_tags_from 0 t) = None.
Proof.
  destruct t as [|c t]; [reflexivity|].
  cbn [Create.tag_length Create.remove_tags_from].
  destruct (N.eqb_spec c GT) as [->|Hc].
  - intros _. cbn. reflexivity.
  - destruct (Create.tag_rest t) as [k|] eqn:E; [discriminate|]. intros _.
    assert (Hn : ~ In GT (c :: t)).
    { intros [H|H]; [congruence|].
      destruct (in_split _ _ H) as (l1 & l2 & ->).
      assert (exists body post, l1 ++ GT :: l2 = body ++ GT :: post
                                /\ ~ In GT body) as (body & post & Hb & Hnb).
      { clear E H. induction l1 as [|a l1 IHl].
        - exists [], l2. split; [reflexivity|intros []].
        - destruct (N.eqb_spec a GT) as [->|Ha].
          + exists [], (l1 ++ GT :: l2). split; [reflexivity|intros []].
          + destruct IHl as (body & post & Hb & Hnb).
            exists (a :: body), post. cbn [app]. rewrite Hb.
            split; [reflexivity|].
            intros [H|H]; [congruence|contradiction]. }
      assert (Create.tag_rest (l1 ++ GT :: l2)
              = Some (S (List.length body))) as E'.
      { apply tag_rest_some. now exists body, post. }
      congruence. }
    assert (Hout : ~ In GT (Create.remove_tags_from 0 (c :: t))).
    { intros H. apply Hn. now apply (in_remove_tags 0). }
    cbn [Create.remove_tags_from] in Hout.
    destruct (if (c =? LT)%N
              then match Create.tag_length t with
                   | Some k => Create.remove_tags_from k t
                   | None => c :: Create.remove_tags_from 0 t
                   end
              else c :: Create.remove_tags_from 0 t) as [|a r] eqn:Er;
      [reflexivity|].
    cbn [Create.tag_length].
    destruct (N.eqb_spec a GT) as [->|Ha]; [reflexivity|].
    rewrite tag_rest_none; [reflexivity|].
    intros H. apply Hout. now right.
Qed.

Lemma tag_free_remove_tags (k : nat) (s : str) :
  tag_free (Create.remove_tags_from k s) = true.
Proof.
  revert k. induction s as [|c s IH]; intros k;
    cbn [Create.remove_tags_from]; [reflexivity|].
  destruct k as [|k]; [|apply IH].
  destruct (N.eqb_spec c LT) as [->|Hc].
  - destruct (Create.tag_length s) as [j|] eqn:E; [apply IH|].
    cbn [tag_free]. rewrite N.eqb_refl.
    rewrite (tag_length_none_kept s E). now rewrite IH.
  - cbn [tag_free]. rewrite (proj2 (N.eqb_neq c LT) Hc). now rewrite IH.
Qed.

Lemma tag_free_fixed (s : str) :
  tag_free s = true -> Create.remove_tags_from 0 s = s.
Proof.
  induction s as [|c s IH]; [reflexivity|].
  cbn [tag_free Create.remove_tags_from]. intros H.
  apply andb_true_iff in H. destruct H as [Hc Hs].
  destruct (c =? LT)%N.
  - destruct (Create.tag_length s); [discriminate|]. now rewrite IH.
  - now rewrite IH.
Qed.

(** X13: removing the tags leaves no tag behind: the result holds no
    match of the pattern, so a second pass changes nothing; a text without
    a match is returned as it is, and no character is ever added. *)
Theorem X13_remove_tags_leaves_no_tag (s : str) :
  ~ has_tag (Create.remove_tags s)
  /\ Create.remove_tags (Create.remove_tags s) = Create.remove_tags s
  /\ (~ has_tag s -> Create.remove_tags s = s)
  /\ incl (Create.remove_tags s) s.
Proof.
  unfold Create.remove_tags. repeat split.
  - apply tag_free_iff. apply tag_free_remove_tags.
  - apply tag_free_fixed. apply tag_free_remove_tags.
  - intros H. apply tag_free_fixed. now apply tag_free_iff.
  - intros x. apply in_remove_tags.
Qed.

Lemma forallb_rev (A : Type) (f : A -> bool) (l : list A) :
  forallb f (rev l) = forallb f l.
Proof.
  induction l as [|a l IH]; [reflexivity|].
  cbn [rev forallb]. rewrite forallb_app, IH. cbn [forallb].
  rewrite andb_true_r. apply andb_comm.
Qed.

Lemma split_ws_words (cur s : str) :
  forallb (fun c => negb (isspace c)) cur = true ->
  Forall (fun w => is_word w = true) (split_ws_from cur s).
Proof.
  revert cur. induction s as [|c s IH]; intros cur Hcur;
    cbn [split_ws_from].
  - destruct cur as [|a cur]; constructor; [|constructor].
    unfold is_word. rewrite forallb_rev, Hcur.
    cbn [rev]. now destruct (rev cur).
  - destruct (isspace c) eqn:E.
    + destruct cur as [|a cur]; [apply IH; reflexivity|].
      constructor; [|apply IH; reflexivity].
      unfold is_word. rewrite forallb_rev, Hcur.
      cbn [rev]. now destruct (rev cur).
    + apply IH. cbn [forallb]. now rewrite E, Hcur.
Qed.

Lemma word_first (w : str) :
  is_word w = true -> exists c t, w = c :: t /\ isspace c = false.
Proof.
  unfold is_word. destruct w as [|c t]; [discriminate|].
  cbn [truthy forallb andb]. intros H. apply andb_true_iff in H.
  destruct H as [H _]. apply negb_true_iff in H. now exists c, t.
Qed.

Lemma word_last (w : str) :
  is_word w = true -> exists c t, rev w = c :: t /\ isspace c = false.
Proof.
  intros H. assert (is_word (rev w) = true) as Hr.
  { unfold is_word in *. rewrite forallb_rev.
    apply andb_true_iff in H. destruct H as [Ht Hf]. rewrite Hf.
    destruct w as [|a w]; [discriminate|]. cbn [rev].
    now destruct (rev w). }
  now apply word_first.
Qed.

Lemma join_words_ends (words : list str) :
  Forall (fun w => is_word w = true) words -> words <> [] ->
  (exists c t, join (py " ") words = c :: t /\ isspace c = false)
  /\ (exists c t, rev (join (py " ") words) = c :: t /\ isspace c = false).
Proof.
  intros Hall Hne. induction Hall as [|w ws Hw Hws IH]; [congruence|].
  cbn [join]. destruct ws as [|w2 ws].
  - split; [now apply word_first|now apply word_last].
  - destruct IH as [_ (c & t & Hr & Hc)]; [discriminate|]. split.
    + destruct (word_first w Hw) as (a & r & -> & Ha).
      exists a. eexists. split; [reflexivity|assumption].
    + rewrite !rev_app_distr, Hr. exists c. eexists.
      split; [reflexivity|assumption].
Qed.

Lemma lstrip_fixed (c : char) (t : str) :
  isspace c = false -> lstrip (c :: t) = c :: t.
Proof. intros H. cbn [lstrip]. now rewrite H. Qed.

Lemma strip_join_words (words : list str) :
  Forall (fun w => is_word w = true) words ->
  strip (join (py " ") words) = join (py " ") words.
Proof.
  intros Hall. destruct words as [|w ws]; [reflexivity|].
  destruct (join_words_ends (w :: ws) Hall)
    as [(c & t & Hj & Hc) (c' & t' & Hr & Hc')]; [discriminate|].
  unfold strip, rstrip. rewrite Hj, (lstrip_fixed c t Hc), <- Hj.
  rewrite Hr, (lstrip_fixed c' t' Hc'), <- Hr. apply rev_involutive.
Qed.

Lemma join_words_chars (words : list str) (c : char) :
  Forall (fun w => is_word w = true) words ->
  In c (join (py " ") words) -> c = 32%N \/ isspace c = false.
Proof.
  intros Hall. induction Hall as [|w ws Hw Hws IH]; [intros []|].
  assert (Hin : In c w -> isspace c = false).
  { intros H. unfold is_word in Hw. apply andb_true_iff in Hw.
    destruct Hw as [_ Hf]. rewrite forallb_forall in Hf.
    apply negb_true_iff. now apply Hf. }
  cbn [join]. destruct ws as [|w2 ws]; [intros H; right; now apply Hin|].
  intros H. apply in_app_or in H. destruct H as [H|H]; [right; now apply Hin|].
  apply in_app_or in H. destruct H as [[<-|[]]|H]; [now left|now apply IH].
Qed.

Lemma clean_text_normalized (text : str) :
  (exists words,
      Create.clean_text text = join (py " ") words
      /\ Forall (fun w => is_word w = true) words)
  /\ (forall c, In c (Create.clean_text text) ->
                isspace c = true -> c = 32%N)
  /\ ~ In NL (Create.clean_text text).
Proof.
  unfold Create.clean_text. cbv zeta.
  set (t := fold_left (fun t old => replace old [] t) Create.pictographs
                      (Create.remove_tags text)).
  assert (Hw : Forall (fun w => is_word w = true) (split_ws t))
    by (apply split_ws_words; reflexivity).
  rewrite (strip_join_words _ Hw).
  assert (Hc : forall c, In c (join (py " ") (split_ws t)) ->
                         isspace c = true -> c = 32%N).
  { intros c Hin Hs. destruct (join_words_chars _ c Hw Hin); congruence. }
  split; [now exists (split_ws t)|]. split; [exact Hc|].
  intros Hin. specialize (Hc NL Hin eq_refl). discriminate.
Qed.

(** X14: the cleaned text is a sequence of words, each non-empty and free
    of whitespace, joined by single spaces: it neither begins nor ends
    with a space, holds no two spaces in a row, and no newline, tab or
    other whitespace than the space. *)
Theorem X14_clean_text_is_normalized (text : str) :
  (exists words,
      Create.clean_text text = join (py " ") words
      /\ Forall (fun w => is_word w = true) words)
  /\ (forall c, In c (Create.clean_text text) ->
                isspace c = true -> c = 32%N)
  /\ ~ In NL (Create.clean_text text).
Proof. exact (clean_text_normalized text). Qed.

(** ** The slides the script adds *)

Lemma split_on_no_sep (sep : char) (s : str) :
  ~ In sep s -> split_on sep s = [s].
Proof.
  induction s as [|c s IH]; [reflexivity|].
  intros Hn. cbn [split_on].
  destruct (N.eqb_spec c sep) as [->|Hc]; [exfalso; apply Hn; now left|].
  rewrite IH; [reflexivity|]. intros H. apply Hn. now right.
Qed.

Lemma fold_add_item (points spacing : N) (items : list str)
      (frame : Create.text_frame) :
  fold_left (Create.add_item points spacing) items frame
  = frame ++ List.map (item_paragraph points spacing) (filter nonblank items).
Proof.
  revert frame. induction items as [|item items IH]; intros frame;
    cbn [fold_left filter]; [now rewrite app_nil_r|].
  rewrite IH. unfold Create.add_item at 1.
  change (truthy (strip item)) with (nonblank item).
  destruct (nonblank item); [|reflexivity].
  cbn [map]. now rewrite <- app_assoc.
Qed.

Lemma styled_title_text (title : str) :
  List.map Create.p_text (Create.styled_title title)
  = [Create.clean_text title].
Proof.
  unfold Create.styled_title, Create.set_text. cbv zeta.
  rewrite split_on_no_sep by apply clean_text_normalized.
  reflexivity.
Qed.

(** X15: for a title and items that, once cleaned, hold only characters
    a paragraph stores as they are, a content slide gets, after the
    paragraph left by clearing the frame, one paragraph per non-blank
    item, in order, with the cleaned text of the item at 14 points; blank
    items are skipped.  Its title is the cleaned title on a single line,
    and the slides already in the deck and its size are kept. *)
Theorem X15_add_content_slide (prs : Create.presentation) (title : str)
        (content_items : list str)
        (Htitle : storable (Create.clean_text title) = true)
        (Hitems : Forall (fun item => storable (Create.clean_text item) = true)
                         (filter nonblank content_items)) :
  exists s,
    Create.slides (Create.add_content_slide prs title content_items)
    = Create.slides prs ++ [s]
    /\ is_content_slide s = true
    /\ title_text s = [Create.clean_text title]
    /\ Create.placeholders s
       = [Create.empty_paragraph
            :: List.map (item_paragraph 14 6) (filter nonblank content_items)]
    /\ Create.slide_width
         (Create.add_content_slide prs title content_items)
       = Create.slide_width prs
    /\ Create.slide_height
         (Create.add_content_slide prs title content_items)
       = Create.slide_height prs.
Proof.
  eexists. split; [reflexivity|]. split; [reflexivity|].
  split; [apply styled_title_text|]. split; [|split; reflexivity].
  cbn [Create.placeholders]. cbv zeta. now rewrite fold_add_item.
Qed.

Lemma X15_add_content_slide_witness :
  exists s,
    Create.slides
      (Create.add_content_slide Create.Presentation (py "  Tools &  <b>Usage</b>")
         [py "• one"; py "   "; py " two   words "])
    = Create.slides Create.Presentation ++ [s]
    /\ is_content_slide s = true
    /\ title_text s = [Create.clean_text (py "  Tools &  <b>Usage</b>")]
    /\ Create.placeholders s
       = [Create.empty_paragraph
            :: List.map (item_paragraph 14 6)
                 (filter nonblank
                    [py "• one"; py "   "; py " two   words "])]
    /\ Create.slide_width
         (Create.add_content_slide Create.Presentation
            (py "  Tools &  <b>Usage</b>")
            [py "• one"; py "   "; py " two   words "])
       = Create.slide_width Create.Presentation
    /\ Create.slide_height
         (Create.add_content_slide Create.Presentation
            (py "  Tools &  <b>Usage</b>")
            [py "• one"; py "   "; py " two   words "])
       = Create.slide_height Create.Presentation.
Proof.
  apply (X15_add_content_slide Create.Presentation
           (py "  Tools &  <b>Usage</b>")
           [py "• one"; py "   "; py " two   words "]).
  - vm_compute. reflexivity.
  - repeat constructor.
Defined.

(** X16: for a title and items that, once cleaned, hold only characters
    a paragraph stores as they are, a two-column slide fills its two
    frames independently, each like the body of a content slide but at 12
    points: one paragraph per non-blank item of its own list, in order,
    after the paragraph left by clearing. *)
Theorem X16_add_two_column_slide (prs : Create.presentation) (title : str)
        (left_items right_items : list str)
        (Htitle : storable (Create.clean_text title) = true)
        (Hleft : Forall (fun item => storable (Create.clean_text item) = true)
                        (filter nonblank left_items))
        (Hright : Forall (fun item => storable (Create.clean_text item) = true)
                         (filter nonblank right_items)) :
  exists s,
    Create.slides
      (Create.add_two_column_slide prs title left_items right_items)
    = Create.slides prs ++ [s]
    /\ is_two_column_slide s = true
    /\ title_text s = [Create.clean_text title]
    /\ Create.placeholders s
       = [Create.empty_paragraph
            :: List.map (item_paragraph 12 4) (filter nonblank left_items);
          Create.empty_paragraph
            :: List.map (item_paragraph 12 4) (filter nonblank right_items)].
Proof.
  eexists. split; [reflexivity|]. split; [reflexivity|].
  split; [apply styled_title_text|].
  cbn [Create.placeholders]. cbv zeta. now rewrite !fold_add_item.
Qed.

Lemma X16_add_two_column_slide_witness :
  exists s,
    Create.slides
      (Create.add_two_column_slide Create.Presentation (py "Pros & Cons")
         [py "fast"; py ""; py "small"] [py " slow  start "])
    = Create.slides Create.Presentation ++ [s]
    /\ is_two_column_slide s = true
    /\ title_text s = [Create.clean_text (py "Pros & Cons")]
    /\ Create.placeholders s
       = [Create.empty_paragraph
            :: List.map (item_paragraph 12 4)
                 (filter nonblank [py "fast"; py ""; py "small"]);
          Create.empty_paragraph
            :: List.map (item_paragraph 12 4)
                 (filter nonblank [py " slow  start "])].
Proof.
  apply (X16_add_two_column_slide Create.Presentation (py "Pros & Cons")
           [py "fast"; py ""; py "small"] [py " slow  start "]).
  - vm_compute. reflexivity.
  - repeat constructor.
  - repeat constructor.
Defined.
